(** * AmpliGraph loss functions: a shallow embedding and its properties

    Source: [src/ampligraph/latent_features/loss_functions.py].

    The module registers five loss classes in [LOSS_REGISTRY] and gives each
    a scalar formula over two score tensors.  Tensors are one-dimensional
    lists of reals (TensorFlow's float32 arithmetic is idealised as real
    arithmetic); a reshaped tensor is a list of rows.  Python exceptions and
    TensorFlow's run-time failures are values of [error], threaded through
    the [result] monad. *)

From Stdlib Require Import Reals Lra Lia.
From stdpp Require Import gmap strings list.

(** ** Exceptions *)

Inductive error : Type :=
  | KeyError (key : string)
      (** a dict subscript [d[key]] on an absent key *)
  | MissingHyperparameterError (key : string)
      (** the [Exception(msg)] that [Loss.__init__] raises from its
          [except KeyError] handler *)
  | ShapeMismatchError
      (** a [tf.Assert] dependency of [_inputs_check] that does not hold *)
  | IncompatibleShapes
      (** a TensorFlow operation that rejects the shapes of its operands
          (broadcasting, [tf.reshape]) *)
  | ConfigurationError.
      (** an unknown loss name requested from the registry *)

Inductive result (A : Type) : Type :=
  | Ok (a : A)
  | Raise (e : error).
Arguments Ok {A} a.
Arguments Raise {A} e.

#[global] Instance result_ret : MRet result := fun _ a => Ok a.
#[global] Instance result_bind : MBind result := fun _ _ f m =>
  match m with
  | Ok a => f a
  | Raise e => Raise e
  end.

(** Python's [d[key]]. *)
Definition getitem {V : Type} (d : gmap string V) (key : string) : result V :=
  match d !! key with
  | Some v => Ok v
  | None => Raise (KeyError key)
  end.

(** Python's [d.get(key, dflt)]. *)
Definition dict_get {V : Type} (d : gmap string V) (key : string) (dflt : V) : V :=
  default dflt (d !! key).

(** ** TensorFlow operations on rank-1 tensors and on [eta, n] matrices *)

Module tf.

(** [tf.reduce_sum] of a rank-1 tensor. *)
Definition reduce_sum (t : list R) : R := foldr Rplus 0%R t.

(** [tf.reduce_sum] of a matrix (all axes). *)
Definition reduce_sum2 (m : list (list R)) : R := reduce_sum (map reduce_sum m).

(** Elementwise binary operation on two rank-1 tensors, with
    TensorFlow's broadcasting: the lengths must be equal, or one of them
    must be 1. *)
Definition broadcast (f : R -> R -> R) (a b : list R) : result (list R) :=
  if decide (length a = length b) then Ok (zip_with f a b)
  else match a, b with
       | [x], _ => Ok (map (f x) b)
       | _, [y] => Ok (map (fun x => f x y) a)
       | _, _ => Raise IncompatibleShapes
       end.

(** [tf.maximum(t, c)] with a scalar [c]. *)
Definition maximum (t : list R) (c : R) : list R := map (fun x => Rmax x c) t.

(** [tf.concat([a, b], 0)]. *)
Definition concat (a b : list R) : list R := a ++ b.

(** An operation between a scalar and a tensor: [c - t], [1 + t],
    [alpha * t] (scalar on the left), [t - c] (scalar on the right). *)
Definition scalar_l (f : R -> R -> R) (c : R) (t : list R) : list R := map (f c) t.
Definition scalar_r (f : R -> R -> R) (t : list R) (c : R) : list R :=
  map (fun x => f x c) t.

Definition negative (t : list R) : list R := map Ropp t.
Definition log (t : list R) : list R := map ln t.
Definition exp (t : list R) : list R := map Rtrigo_def.exp t.

(** [tf.sigmoid(x) = 1 / (1 + exp(-x))]. *)
Definition sigmoid1 (x : R) : R := (1 / (1 + Rtrigo_def.exp (- x)))%R.
Definition sigmoid (t : list R) : list R := map sigmoid1 t.

(** Rows of length [n] cut from a flat tensor, row-major. *)
Fixpoint rows (eta n : nat) (t : list R) : list (list R) :=
  match eta with
  | O => []
  | S eta' => take n t :: rows eta' n (drop n t)
  end.

(** [tf.reshape(t, [eta, n])]: defined when [t] has [eta * n] elements. *)
Definition reshape (t : list R) (eta n : nat) : result (list (list R)) :=
  if decide (length t = eta * n) then Ok (rows eta n t)
  else Raise IncompatibleShapes.

(** [tf.reduce_sum(m, axis=0)] of a matrix with [n] columns. *)
Definition reduce_sum_axis0 (n : nat) (m : list (list R)) : list R :=
  foldr (zip_with Rplus) (replicate n 0%R) m.

(** [tf.nn.softmax(m, axis=0)] of a matrix with [n] columns: every entry's
    exponential over the sum of the exponentials of its column. *)
Definition softmax_axis0 (n : nat) (m : list (list R)) : list (list R) :=
  let e := map exp m in
  let s := reduce_sum_axis0 n e in
  map (fun row => zip_with Rdiv row s) e.

End tf.

(** ** The loss registry *)

(** The five classes decorated with [@register_loss]. *)
Inductive loss_class : Type :=
  | PairwiseLoss
  | NLLLoss
  | NLLOriginalLoss
  | AbsoluteMarginLoss
  | SelfAdversarialLoss.

Record registry_entry : Type := {
  class_handle : loss_class;
  external_params : list string;
  class_params : gmap string bool
}.

(** The default arguments of [register_loss]. *)
Definition default_external_params : list string := [].
Definition default_class_params : gmap string bool :=
  {[ "require_same_size_pos_neg" := true ]}.

(** [register_loss(name, external_params, class_params)(class_handle)]:
    the update of [LOSS_REGISTRY] made by [insert_in_registry]. *)
Definition register_loss (name : string) (external_params : list string)
    (class_params : gmap string bool) (class_handle : loss_class)
    (registry : gmap string registry_entry) : gmap string registry_entry :=
  <[ name := {| class_handle := class_handle;
                external_params := external_params;
                class_params := class_params |} ]> registry.

(** [LOSS_REGISTRY] once the module is loaded: the five decorators, applied
    in the order of the file to the initially empty dict. *)
Definition LOSS_REGISTRY : gmap string registry_entry :=
  register_loss "self_adversarial" ["margin"; "alpha"]
    {[ "require_same_size_pos_neg" := false ]} SelfAdversarialLoss
  (register_loss "absolute_margin" ["margin"] default_class_params AbsoluteMarginLoss
  (register_loss "nll-adversarial" ["alpha"]
    {[ "require_same_size_pos_neg" := false ]} NLLOriginalLoss
  (register_loss "nll" default_external_params default_class_params NLLLoss
  (register_loss "pairwise" ["margin"] default_class_params PairwiseLoss ∅)))).

(** [class_handle.name = name], as each decorator sets it. *)
Definition name (c : loss_class) : string :=
  match c with
  | PairwiseLoss => "pairwise"
  | NLLLoss => "nll"
  | NLLOriginalLoss => "nll-adversarial"
  | AbsoluteMarginLoss => "absolute_margin"
  | SelfAdversarialLoss => "self_adversarial"
  end.

(** ** Loss instances *)

(** An instance: its class, [_loss_parameters] and [_dependencies].  The
    entry ['eta'] of [_loss_parameters] is documented as the number of
    negatives: it is a natural number, used as a count and as a dimension,
    and is kept apart from the float hyperparameters.  A dependency is the
    condition of a [tf.Assert], evaluated on the inputs of the call that
    created it. *)
Record Loss : Type := {
  class_of : loss_class;
  _loss_parameters_eta : nat;
  _loss_parameters : gmap string R;
  _dependencies : list bool
}.

(** [_init_hyperparams] of each class, as a function from the parameters
    stored so far to the parameters stored afterwards. *)
Definition _init_hyperparams (c : loss_class) (hyperparam_dict : gmap string R)
    (params : gmap string R) : result (gmap string R) :=
  match c with
  | PairwiseLoss =>
      Ok (<[ "margin" := dict_get hyperparam_dict "margin" 1%R ]> params)
  | NLLLoss => Ok params
  | NLLOriginalLoss =>
      Ok (<[ "alpha" := dict_get hyperparam_dict "alpha" 0.5%R ]> params)
  | AbsoluteMarginLoss =>
      Ok (<[ "margin" := dict_get hyperparam_dict "margin" 1%R ]> params)
  | SelfAdversarialLoss =>
      let params := <[ "margin" := dict_get hyperparam_dict "margin" 3%R ]> params in
      Ok (<[ "alpha" := dict_get hyperparam_dict "alpha" 0.5%R ]> params)
  end.

(** [Loss.__init__], for a class whose [_init_hyperparams] is [init].  The
    [verbose] branch only prints and is left out.  A [KeyError] of [init]
    is caught and raised again as the constructor's own exception. *)
Definition Loss__init__
    (init : gmap string R -> gmap string R -> result (gmap string R))
    (c : loss_class) (eta : nat) (hyperparam_dict : gmap string R) : result Loss :=
  match init hyperparam_dict ∅ with
  | Ok params =>
      Ok {| class_of := c; _loss_parameters_eta := eta;
            _loss_parameters := params; _dependencies := [] |}
  | Raise (KeyError key) => Raise (MissingHyperparameterError key)
  | Raise e => Raise e
  end.

(** The constructor of each class: [super().__init__(eta, hyperparam_dict, verbose)]. *)
Definition __init__ (c : loss_class) (eta : nat) (hyperparam_dict : gmap string R)
    : result Loss :=
  Loss__init__ (_init_hyperparams c) c eta hyperparam_dict.

(** [LOSS_REGISTRY[name].class_params['require_same_size_pos_neg']], as
    [_inputs_check] reads it for an instance of class [c]. *)
Definition require_same_size_pos_neg (c : loss_class) : result bool :=
  entry ← getitem LOSS_REGISTRY (name c);
  getitem (class_params entry) "require_same_size_pos_neg".

(** [Loss._inputs_check]: the instance with its dependencies recomputed. *)
Definition _inputs_check (self : Loss) (scores_pos scores_neg : list R) : result Loss :=
  flag ← require_same_size_pos_neg (class_of self);
  let deps :=
    if flag && negb (_loss_parameters_eta self =? 1)
    then [length scores_pos =? length scores_neg]
    else [] in
  Ok {| class_of := class_of self;
        _loss_parameters_eta := _loss_parameters_eta self;
        _loss_parameters := _loss_parameters self;
        _dependencies := deps |}.

(** [with tf.control_dependencies(deps): body]: the assertions run before
    the body, and a failed one aborts the computation. *)
Definition control_dependencies {A : Type} (deps : list bool) (body : result A)
    : result A :=
  if forallb (fun holds : bool => holds) deps then body else Raise ShapeMismatchError.

Section Apply.
Local Open Scope R_scope.

(** [_apply] of each class. *)
Definition _apply (self : Loss) (scores_pos scores_neg : list R) : result R :=
  match class_of self with
  | PairwiseLoss =>
      margin ← getitem (_loss_parameters self) "margin";
      t ← tf.broadcast Rplus (tf.scalar_l Rminus margin scores_pos) scores_neg;
      Ok (tf.reduce_sum (tf.maximum t 0))
  | NLLLoss =>
      let scores := tf.concat (tf.negative scores_pos) scores_neg in
      Ok (tf.reduce_sum (tf.log (tf.scalar_l Rplus 1 (tf.exp scores))))
  | NLLOriginalLoss =>
      alpha ← getitem (_loss_parameters self) "alpha";
      let n := length scores_pos in
      scores_neg_reshaped ← tf.reshape scores_neg (_loss_parameters_eta self) n;
      let p_neg :=
        tf.softmax_axis0 n (map (tf.scalar_l Rmult alpha) scores_neg_reshaped) in
      Ok (tf.reduce_sum (tf.negative (tf.log (tf.sigmoid scores_pos)))
          + tf.reduce_sum2
              (zip_with (zip_with Rmult) p_neg
                 (map (fun row => tf.negative (tf.log (tf.sigmoid (tf.negative row))))
                    scores_neg_reshaped)))
  | AbsoluteMarginLoss =>
      margin ← getitem (_loss_parameters self) "margin";
      t ← tf.broadcast Rminus (tf.maximum (tf.scalar_l Rplus margin scores_neg) 0)
            scores_pos;
      Ok (tf.reduce_sum t)
  | SelfAdversarialLoss =>
      margin ← getitem (_loss_parameters self) "margin";
      alpha ← getitem (_loss_parameters self) "alpha";
      let n := length scores_pos in
      scores_neg_reshaped ← tf.reshape scores_neg (_loss_parameters_eta self) n;
      let p_neg :=
        tf.softmax_axis0 n (map (tf.scalar_l Rmult alpha) scores_neg_reshaped) in
      Ok (tf.reduce_sum
            (tf.negative
               (tf.log (tf.sigmoid (tf.scalar_l Rminus margin (tf.negative scores_pos)))))
          - tf.reduce_sum2
              (zip_with (zip_with Rmult) p_neg
                 (map (fun row =>
                         tf.log (tf.sigmoid (tf.scalar_r Rminus (tf.negative row) margin)))
                    scores_neg_reshaped)))
  end.

(** [Loss.apply]. *)
Definition apply (self : Loss) (scores_pos scores_neg : list R) : result R :=
  self ← _inputs_check self scores_pos scores_neg;
  control_dependencies (_dependencies self) (_apply self scores_pos scores_neg).

End Apply.

(** What each decorator declares for [require_same_size_pos_neg]. *)
Definition declared_same_size (c : loss_class) : bool :=
  match c with
  | NLLOriginalLoss | SelfAdversarialLoss => false
  | PairwiseLoss | NLLLoss | AbsoluteMarginLoss => true
  end.

(** ** The formulas of the specification

    Sums are written over positions: [sum_over n f] is [f 0 + ... + f (n-1)],
    and [score t i] is the [i]-th score of [t]. *)

Fixpoint sum_over (n : nat) (f : nat -> R) : R :=
  match n with
  | O => 0%R
  | S n' => (sum_over n' f + f n')%R
  end.

Definition score (t : list R) (i : nat) : R := nth i t 0%R.

Section Formulas.
Local Open Scope R_scope.

Definition pairwise_formula (margin : R) (scores_pos scores_neg : list R) : R :=
  sum_over (length scores_pos)
    (fun i => Rmax 0 (margin - score scores_pos i + score scores_neg i)).

Definition nll_formula (scores_pos scores_neg : list R) : R :=
  let scores := map Ropp scores_pos ++ scores_neg in
  sum_over (length scores) (fun i => ln (1 + exp (score scores i))).

Definition absolute_margin_formula (margin : R) (scores_pos scores_neg : list R) : R :=
  sum_over (length scores_pos)
    (fun i => Rmax 0 (margin + score scores_neg i) - score scores_pos i).

End Formulas.

(** The defaults that the docstrings of the classes document. *)
Definition documented_default (c : loss_class) (param : string) : option R :=
  match c with
  | PairwiseLoss | AbsoluteMarginLoss =>
      if decide (param = "margin") then Some 1%R else None
  | NLLLoss => None
  | NLLOriginalLoss =>
      if decide (param = "alpha") then Some 0.5%R else None
  | SelfAdversarialLoss =>
      if decide (param = "margin") then Some 3%R
      else if decide (param = "alpha") then Some 0.5%R else None
  end.

(** Modelled from the spec: the registry's [lookup(name)] of section 4.1,
    which the source does not define (it only holds the dict
    [LOSS_REGISTRY]).  It returns the class registered under [name] and
    fails with ConfigurationError for a name that is not registered. *)
Definition lookup (loss_name : string) : result loss_class :=
  match LOSS_REGISTRY !! loss_name with
  | Some entry => Ok (class_handle entry)
  | None => Raise ConfigurationError
  end.

(** The names under which the module registers a loss. *)
Definition registered_names : list string :=
  ["pairwise"; "nll"; "nll-adversarial"; "absolute_margin"; "self_adversarial"].

(** A class, not in the module, whose [_init_hyperparams] reads a
    hyperparameter with a subscript, that is without a default:
    [self._loss_parameters[param] = hyperparam_dict[param]]. *)
Definition _init_hyperparams_subscript (param : string)
    (hyperparam_dict : gmap string R) (params : gmap string R)
    : result (gmap string R) :=
  v ← getitem hyperparam_dict param;
  Ok (<[ param := v ]> params).

Section AdversarialFormulas.
Local Open Scope R_scope.

(** Entry [i, j] of [scores_neg] reshaped, row-major, to [n] columns. *)
Definition neg_matrix (n : nat) (scores_neg : list R) (i j : nat) : R :=
  score scores_neg (i * n + j).

(** Entry [i, j] of [softmax(alpha * M, axis=0)] for the [eta] by [n]
    matrix [M] of the negatives: the weight of negative [i] among the [eta]
    negatives of positive [j]. *)
Definition p_neg (alpha : R) (eta n : nat) (scores_neg : list R) (i j : nat) : R :=
  exp (alpha * neg_matrix n scores_neg i j)
  / sum_over eta (fun k => exp (alpha * neg_matrix n scores_neg k j)).

Definition nll_adversarial_formula (alpha : R) (eta : nat)
    (scores_pos scores_neg : list R) : R :=
  let n := length scores_pos in
  sum_over n (fun j => - ln (tf.sigmoid1 (score scores_pos j)))
  + sum_over eta (fun i => sum_over n (fun j =>
      p_neg alpha eta n scores_neg i j
      * - ln (tf.sigmoid1 (- neg_matrix n scores_neg i j)))).

Definition self_adversarial_formula (margin alpha : R) (eta : nat)
    (scores_pos scores_neg : list R) : R :=
  let n := length scores_pos in
  sum_over n (fun j => - ln (tf.sigmoid1 (margin - - score scores_pos j)))
  - sum_over eta (fun i => sum_over n (fun j =>
      p_neg alpha eta n scores_neg i j
      * ln (tf.sigmoid1 (- neg_matrix n scores_neg i j - margin)))).

(** The two formulas without the weighting. *)
Definition nll_unweighted_formula (scores_pos scores_neg : list R) : R :=
  sum_over (length scores_pos) (fun j => - ln (tf.sigmoid1 (score scores_pos j)))
  + sum_over (length scores_neg) (fun j => - ln (tf.sigmoid1 (- score scores_neg j))).

Definition self_unweighted_formula (margin : R) (scores_pos scores_neg : list R) : R :=
  sum_over (length scores_pos)
    (fun j => - ln (tf.sigmoid1 (margin - - score scores_pos j)))
  - sum_over (length scores_neg)
      (fun j => ln (tf.sigmoid1 (- score scores_neg j - margin))).

End AdversarialFormulas.

(** The list [f 0; ...; f (n-1)], and the matrix of the [m i j]. *)
Fixpoint tabulate {A : Type} (n : nat) (f : nat -> A) : list A :=
  match n with
  | O => []
  | S n' => f O :: tabulate n' (fun i => f (S i))
  end.

Definition tabulate2 (eta n : nat) (m : nat -> nat -> R) : list (list R) :=
  tabulate eta (fun i => tabulate n (m i)).

(** ** The rest of the base class *)

(** The [Exception] that [Loss.get_state] raises from its
    [except KeyError] handler. *)
Inductive get_state_error : Type :=
  | InvalidKey (key : string).

(** [Loss.get_state(param_name)] of an instance whose class attribute
    [name] is [self_name], when the registry is in the state [registry]:
    [LOSS_REGISTRY[self.name].class_params.get(param_name)]. *)
Definition get_state (registry : gmap string registry_entry)
    (self_name param_name : string) : get_state_error + option bool :=
  match registry !! self_name with
  | Some entry => inr (class_params entry !! param_name)
  | None => inl (InvalidKey self_name)
  end.

(** The dependencies that [Loss._inputs_check] creates for an instance
    whose class attribute [name] is [self_name] and whose
    [_loss_parameters['eta']] is [eta], when the registry is in the state
    [registry]. *)
Definition _inputs_check_dependencies (registry : gmap string registry_entry)
    (self_name : string) (eta : nat) (scores_pos scores_neg : list R)
    : result (list bool) :=
  entry ← getitem registry self_name;
  flag ← getitem (class_params entry) "require_same_size_pos_neg";
  Ok (if flag && negb (eta =? 1)
      then [length scores_pos =? length scores_neg]
      else []).

(** The attribute [name] of the abstract class [Loss] itself. *)
Definition Loss_name : string := "".

(** ** Where [apply] returns a loss

    The lengths of the two score tensors on which [apply] of a class
    returns a loss, for an instance built with [eta]. *)
Definition apply_returns (c : loss_class) (eta len_pos len_neg : nat) : Prop :=
  match c with
  | PairwiseLoss | AbsoluteMarginLoss =>
      len_pos = len_neg \/ (eta = 1 /\ (len_pos = 1 \/ len_neg = 1))
  | NLLLoss => eta = 1 \/ len_pos = len_neg
  | NLLOriginalLoss | SelfAdversarialLoss => len_neg = eta * len_pos
  end.

Section ExtraFormulas.
Local Open Scope R_scope.

(** [log(1 + exp(x))]. *)
Definition softplus (x : R) : R := ln (1 + exp x).

(** [-log(sigmoid(x))]. *)
Definition neg_log_sigmoid (x : R) : R := - ln (tf.sigmoid1 x).

End ExtraFormulas.

(** ** Sums over positions *)

Section Sums.
Local Open Scope R_scope.

Lemma sum_over_ext n f g :
  (forall i, (i < n)%nat -> f i = g i) -> sum_over n f = sum_over n g.
Proof.
  induction n as [|n IH]; intros Hfg; simpl; [reflexivity|].
  rewrite IH, Hfg by (intros; try apply Hfg; lia). reflexivity.
Qed.

Lemma sum_over_shift n f :
  sum_over (S n) f = f O + sum_over n (fun i => f (S i)).
Proof.
  induction n as [|n IH]; simpl in *; [lra|].
  rewrite IH. lra.
Qed.

Lemma reduce_sum_map (f : R -> R) (t : list R) :
  tf.reduce_sum (map f t) = sum_over (length t) (fun i => f (score t i)).
Proof.
  induction t as [|x t IH]; [reflexivity|].
  cbn [map length]. rewrite sum_over_shift. cbn [tf.reduce_sum foldr].
  fold (tf.reduce_sum (map f t)). rewrite IH. reflexivity.
Qed.

Lemma reduce_sum_zip_with (f : R -> R -> R) (a b : list R) :
  length a = length b ->
  tf.reduce_sum (zip_with f a b)
  = sum_over (length a) (fun i => f (score a i) (score b i)).
Proof.
  revert b. induction a as [|x a IH]; intros [|y b] Hlen; try discriminate;
    [reflexivity|].
  cbn [zip_with length]. rewrite sum_over_shift. cbn [tf.reduce_sum foldr].
  fold (tf.reduce_sum (zip_with f a b)). rewrite IH by (simpl in Hlen; lia).
  reflexivity.
Qed.

End Sums.

(** ** Broadcasting *)

Lemma broadcast_same_length f a b :
  length a = length b -> tf.broadcast f a b = Ok (zip_with f a b).
Proof. intros Hlen. unfold tf.broadcast. rewrite decide_True; done. Qed.

Lemma broadcast_incompatible f a b :
  length a ≠ length b -> length a ≠ 1 -> length b ≠ 1 ->
  tf.broadcast f a b = Raise IncompatibleShapes.
Proof.
  intros Hlen Ha Hb. unfold tf.broadcast. rewrite decide_False by done.
  destruct a as [|x [|x' a]], b as [|y [|y' b]]; simpl in *; congruence.
Qed.

Lemma broadcast_singleton f a b :
  length a = 1 \/ length b = 1 -> exists t, tf.broadcast f a b = Ok t.
Proof.
  intros Hlen. unfold tf.broadcast. case_decide; [eauto|].
  destruct a as [|x [|x' a]], b as [|y [|y' b]]; simpl in *; eauto;
    destruct Hlen; discriminate.
Qed.

(** ** The registry and the instances of the five classes *)

Lemma LOSS_REGISTRY_class (c : loss_class) :
  exists entry, LOSS_REGISTRY !! name c = Some entry
    /\ class_handle entry = c
    /\ class_params entry !! "require_same_size_pos_neg" = Some (declared_same_size c).
Proof. destruct c; eexists; (split; [reflexivity|split; reflexivity]). Qed.

Lemma require_same_size_pos_neg_eq (c : loss_class) :
  require_same_size_pos_neg c = Ok (declared_same_size c).
Proof. destruct c; reflexivity. Qed.

Lemma _inputs_check_eq (self : Loss) (scores_pos scores_neg : list R) :
  _inputs_check self scores_pos scores_neg
  = Ok {| class_of := class_of self;
          _loss_parameters_eta := _loss_parameters_eta self;
          _loss_parameters := _loss_parameters self;
          _dependencies :=
            if declared_same_size (class_of self)
               && negb (_loss_parameters_eta self =? 1)
            then [length scores_pos =? length scores_neg] else [] |}.
Proof.
  unfold _inputs_check. rewrite require_same_size_pos_neg_eq. reflexivity.
Qed.

Lemma _apply_dependencies c eta params deps scores_pos scores_neg :
  _apply {| class_of := c; _loss_parameters_eta := eta;
            _loss_parameters := params; _dependencies := deps |}
    scores_pos scores_neg
  = _apply {| class_of := c; _loss_parameters_eta := eta;
              _loss_parameters := params; _dependencies := [] |}
      scores_pos scores_neg.
Proof. reflexivity. Qed.

(** [apply] is [_apply] behind the size assertion, which exists only for a
    class that declares [require_same_size_pos_neg] and an [eta] other
    than 1. *)
Lemma apply_unfold c eta params scores_pos scores_neg :
  let self := {| class_of := c; _loss_parameters_eta := eta;
                 _loss_parameters := params; _dependencies := [] |} in
  apply self scores_pos scores_neg
  = if declared_same_size c && negb (eta =? 1)
       && negb (length scores_pos =? length scores_neg)
    then Raise ShapeMismatchError
    else _apply self scores_pos scores_neg.
Proof.
  intros self. unfold apply. rewrite _inputs_check_eq. subst self. simpl.
  destruct (declared_same_size c), (eta =? 1); simpl; try reflexivity.
  unfold control_dependencies. simpl.
  destruct (length scores_pos =? length scores_neg); reflexivity.
Qed.

Lemma __init___eq c eta hyperparam_dict :
  exists params,
    _init_hyperparams c hyperparam_dict ∅ = Ok params
    /\ __init__ c eta hyperparam_dict
       = Ok {| class_of := c; _loss_parameters_eta := eta;
               _loss_parameters := params; _dependencies := [] |}.
Proof. destruct c; eexists; split; reflexivity. Qed.

Section Elementwise.
Local Open Scope R_scope.

Lemma map_zip_with (g : R -> R) (f : R -> R -> R) (a b : list R) :
  map g (zip_with f a b) = zip_with (fun x y => g (f x y)) a b.
Proof.
  revert b. induction a as [|x a IH]; intros [|y b]; simpl; try reflexivity.
  rewrite IH. reflexivity.
Qed.

Lemma zip_with_map_l (f : R -> R -> R) (g : R -> R) (a b : list R) :
  zip_with f (map g a) b = zip_with (fun x y => f (g x) y) a b.
Proof.
  revert b. induction a as [|x a IH]; intros [|y b]; simpl; try reflexivity.
  rewrite IH. reflexivity.
Qed.

Lemma zip_with_flip (f : R -> R -> R) (a b : list R) :
  zip_with f a b = zip_with (fun y x => f x y) b a.
Proof.
  revert b. induction a as [|x a IH]; intros [|y b]; simpl; try reflexivity.
  rewrite IH. reflexivity.
Qed.

(** The pairwise formula on tensors of one length. *)
Lemma pairwise_tensor margin scores_pos scores_neg :
  length scores_pos = length scores_neg ->
  tf.reduce_sum
    (tf.maximum (zip_with Rplus (tf.scalar_l Rminus margin scores_pos) scores_neg) 0)
  = pairwise_formula margin scores_pos scores_neg.
Proof.
  intros Hlen. unfold tf.maximum, tf.scalar_l, pairwise_formula.
  rewrite zip_with_map_l, map_zip_with, reduce_sum_zip_with by done.
  apply sum_over_ext. intros i _. apply Rmax_comm.
Qed.

Lemma absolute_margin_tensor margin scores_pos scores_neg :
  length scores_pos = length scores_neg ->
  tf.reduce_sum
    (zip_with Rminus (tf.maximum (tf.scalar_l Rplus margin scores_neg) 0) scores_pos)
  = absolute_margin_formula margin scores_pos scores_neg.
Proof.
  intros Hlen. unfold tf.maximum, tf.scalar_l, absolute_margin_formula.
  rewrite map_map, zip_with_map_l, zip_with_flip, reduce_sum_zip_with by done.
  apply sum_over_ext. intros i _. f_equal. apply Rmax_comm.
Qed.

Lemma nll_tensor scores_pos scores_neg :
  tf.reduce_sum
    (tf.log (tf.scalar_l Rplus 1
       (tf.exp (tf.concat (tf.negative scores_pos) scores_neg))))
  = nll_formula scores_pos scores_neg.
Proof.
  unfold tf.log, tf.scalar_l, tf.exp, tf.concat, tf.negative, nll_formula.
  rewrite !map_map, reduce_sum_map. cbv zeta. reflexivity.
Qed.

End Elementwise.

Lemma pairwise_apply_eq eta hyperparam_dict scores_pos scores_neg :
  exists self,
    __init__ PairwiseLoss eta hyperparam_dict = Ok self
    /\ _apply self scores_pos scores_neg
       = (t ← tf.broadcast Rplus
               (tf.scalar_l Rminus (dict_get hyperparam_dict "margin" 1%R) scores_pos)
               scores_neg;
          Ok (tf.reduce_sum (tf.maximum t 0%R)))
    /\ apply self scores_pos scores_neg
       = if negb (eta =? 1) && negb (length scores_pos =? length scores_neg)
         then Raise ShapeMismatchError
         else _apply self scores_pos scores_neg.
Proof.
  eexists. split; [reflexivity|]. split.
  - unfold _apply, getitem. simpl. rewrite lookup_insert_eq. reflexivity.
  - apply apply_unfold.
Qed.

Lemma absolute_margin_apply_eq eta hyperparam_dict scores_pos scores_neg :
  exists self,
    __init__ AbsoluteMarginLoss eta hyperparam_dict = Ok self
    /\ _apply self scores_pos scores_neg
       = (t ← tf.broadcast Rminus
               (tf.maximum
                  (tf.scalar_l Rplus (dict_get hyperparam_dict "margin" 1%R) scores_neg)
                  0%R)
               scores_pos;
          Ok (tf.reduce_sum t))
    /\ apply self scores_pos scores_neg
       = if negb (eta =? 1) && negb (length scores_pos =? length scores_neg)
         then Raise ShapeMismatchError
         else _apply self scores_pos scores_neg.
Proof.
  eexists. split; [reflexivity|]. split.
  - unfold _apply, getitem. simpl. rewrite lookup_insert_eq. reflexivity.
  - apply apply_unfold.
Qed.

Lemma nll_apply_eq eta hyperparam_dict scores_pos scores_neg :
  exists self,
    __init__ NLLLoss eta hyperparam_dict = Ok self
    /\ _apply self scores_pos scores_neg = Ok (nll_formula scores_pos scores_neg)
    /\ apply self scores_pos scores_neg
       = if negb (eta =? 1) && negb (length scores_pos =? length scores_neg)
         then Raise ShapeMismatchError
         else _apply self scores_pos scores_neg.
Proof.
  eexists. split; [reflexivity|]. split.
  - unfold _apply. simpl. rewrite nll_tensor. reflexivity.
  - apply apply_unfold.
Qed.

Lemma broadcast_cases f a b :
  (exists t, tf.broadcast f a b = Ok t)
  \/ tf.broadcast f a b = Raise IncompatibleShapes.
Proof.
  unfold tf.broadcast. case_decide; [eauto|].
  destruct a as [|x [|x' a]], b as [|y [|y' b]]; eauto.
Qed.

(** [_apply] of the three classes that declare [require_same_size_pos_neg]
    either returns a loss or fails in its elementwise operation. *)
Lemma _apply_same_size_cases c eta hyperparam_dict scores_pos scores_neg :
  declared_same_size c = true ->
  exists self,
    __init__ c eta hyperparam_dict = Ok self
    /\ apply self scores_pos scores_neg
       = (if negb (eta =? 1) && negb (length scores_pos =? length scores_neg)
          then Raise ShapeMismatchError
          else _apply self scores_pos scores_neg)
    /\ ((exists loss, _apply self scores_pos scores_neg = Ok loss)
        \/ (c <> NLLLoss
            /\ _apply self scores_pos scores_neg = Raise IncompatibleShapes))
    /\ (c = NLLLoss \/ length scores_pos = length scores_neg
        \/ length scores_pos = 1 \/ length scores_neg = 1 ->
        exists loss, _apply self scores_pos scores_neg = Ok loss)
    /\ (c <> NLLLoss -> length scores_pos <> length scores_neg ->
        length scores_pos <> 1 -> length scores_neg <> 1 ->
        _apply self scores_pos scores_neg = Raise IncompatibleShapes).
Proof.
  intros Hc. destruct c; try discriminate.
  - destruct (pairwise_apply_eq eta hyperparam_dict scores_pos scores_neg)
      as (self & Hinit & Happly & Hcheck).
    exists self. split; [done|]. split; [done|]. rewrite Happly.
    set (a := tf.scalar_l _ _ _).
    assert (Ha : length a = length scores_pos) by apply length_map.
    split; [|split].
    + destruct (broadcast_cases Rplus a scores_neg) as [[t ->]| ->]; simpl;
        [left; eauto|right; split; done].
    + intros [?|[Hlen|Hone]]; [done| |].
      * rewrite broadcast_same_length by congruence. simpl. eauto.
      * destruct (broadcast_singleton Rplus a scores_neg) as [t ->];
          [rewrite Ha; done|simpl; eauto].
    + intros _ Hlen Hp Hn. rewrite broadcast_incompatible by congruence. done.
  - destruct (nll_apply_eq eta hyperparam_dict scores_pos scores_neg)
      as (self & Hinit & Happly & Hcheck).
    exists self. split; [done|]. split; [done|]. rewrite Happly.
    split; [left; eauto|]. split; [eauto|done].
  - destruct (absolute_margin_apply_eq eta hyperparam_dict scores_pos scores_neg)
      as (self & Hinit & Happly & Hcheck).
    exists self. split; [done|]. split; [done|]. rewrite Happly.
    set (a := tf.maximum _ _).
    assert (Ha : length a = length scores_neg).
    { unfold a, tf.maximum, tf.scalar_l. rewrite !length_map. done. }
    split; [|split].
    + destruct (broadcast_cases Rminus a scores_pos) as [[t ->]| ->]; simpl;
        [left; eauto|right; split; done].
    + intros [?|[Hlen|Hone]]; [done| |].
      * rewrite broadcast_same_length by congruence. simpl. eauto.
      * destruct (broadcast_singleton Rminus a scores_pos) as [t ->];
          [rewrite Ha; tauto|simpl; eauto].
    + intros _ Hlen Hp Hn. rewrite broadcast_incompatible by congruence. done.
Qed.

(** ** The claims *)

(** C1 (amended).  For every class that declares
    [require_same_size_pos_neg] (PairwiseLoss, NLLLoss, AbsoluteMarginLoss)
    and every pair of score tensors of different lengths: an instance built
    with [eta] other than 1 raises ShapeMismatchError in [apply] and
    returns no loss.  An instance built with [eta = 1] has no size check:
    [apply] is [_apply], it never raises ShapeMismatchError, and it returns
    a loss for NLLLoss at all lengths and for the two margin losses when
    one of the lengths is 1; for the two margin losses at other mismatched
    lengths the elementwise operation rejects the shapes. *)
Theorem apply_shape_check (c : loss_class) (eta : nat)
    (hyperparam_dict : gmap string R) (scores_pos scores_neg : list R) :
  require_same_size_pos_neg c = Ok true ->
  length scores_pos <> length scores_neg ->
  exists self,
    __init__ c eta hyperparam_dict = Ok self
    /\ (eta <> 1 -> apply self scores_pos scores_neg = Raise ShapeMismatchError)
    /\ (eta = 1 ->
        apply self scores_pos scores_neg = _apply self scores_pos scores_neg
        /\ apply self scores_pos scores_neg <> Raise ShapeMismatchError
        /\ (c = NLLLoss \/ length scores_pos = 1 \/ length scores_neg = 1 ->
            exists loss, apply self scores_pos scores_neg = Ok loss)
        /\ (c <> NLLLoss -> length scores_pos <> 1 -> length scores_neg <> 1 ->
            apply self scores_pos scores_neg = Raise IncompatibleShapes)).
Proof.
  rewrite require_same_size_pos_neg_eq. intros [= Hc] Hlen.
  destruct (_apply_same_size_cases c eta hyperparam_dict scores_pos scores_neg Hc)
    as (self & Hinit & Happly & Hcases & Hok & Hbad).
  exists self. split; [done|]. split.
  - intros Heta. rewrite Happly.
    apply Nat.eqb_neq in Heta, Hlen. rewrite Heta, Hlen. reflexivity.
  - intros ->. simpl in Happly. rewrite Happly. split; [done|]. split; [|split].
    + destruct Hcases as [[loss ->]|[_ ->]]; discriminate.
    + intros H. apply Hok. tauto.
    + intros. apply Hbad; done.
Qed.

Lemma apply_shape_check_witness :
  require_same_size_pos_neg PairwiseLoss = Ok true
  /\ length [0; 0; 0]%R <> length [0; 0; 0; 0]%R
  /\ exists self,
       __init__ PairwiseLoss 2 ∅ = Ok self
       /\ apply self [0; 0; 0]%R [0; 0; 0; 0]%R = Raise ShapeMismatchError.
Proof.
  split; [reflexivity|]. split; [discriminate|].
  destruct (apply_shape_check PairwiseLoss 2 ∅ [0; 0; 0]%R [0; 0; 0; 0]%R)
    as (self & Hinit & Hraise & _); [reflexivity|discriminate|].
  exists self. split; [exact Hinit|]. apply Hraise. discriminate.
Defined.

(** C1, as stated, fails: PairwiseLoss built with [eta = 1] and applied to
    3 positive and 4 negative scores raises, in the elementwise sum. *)
Lemma pairwise_eta1_mismatch_raises :
  exists self,
    __init__ PairwiseLoss 1 ∅ = Ok self
    /\ require_same_size_pos_neg PairwiseLoss = Ok true
    /\ length [0; 0; 0]%R <> length [0; 0; 0; 0]%R
    /\ apply self [0; 0; 0]%R [0; 0; 0; 0]%R = Raise IncompatibleShapes.
Proof.
  eexists. split; [reflexivity|]. split; [reflexivity|]. split; [discriminate|].
  rewrite apply_unfold. simpl. unfold _apply, getitem. simpl.
  rewrite lookup_insert_eq. reflexivity.
Qed.

Section MarginLosses.
Local Open Scope R_scope.

(** C2.  On score tensors of one length, [PairwiseLoss.apply] returns the
    sum over the positions [i] of [max(0, margin - scores_pos[i] +
    scores_neg[i])], whatever the margin; with margin 1 it returns 0 on
    [2.0] against [0.5], and 1 on [0.0] against [0.0]. *)
Theorem pairwise_apply_formula :
  (forall (eta : nat) (hyperparam_dict : gmap string R)
          (scores_pos scores_neg : list R),
      length scores_pos = length scores_neg ->
      exists self,
        __init__ PairwiseLoss eta hyperparam_dict = Ok self
        /\ apply self scores_pos scores_neg
           = Ok (pairwise_formula (dict_get hyperparam_dict "margin" 1)
                   scores_pos scores_neg))
  /\ (forall eta : nat, exists self,
        __init__ PairwiseLoss eta {[ "margin" := 1 ]} = Ok self
        /\ apply self [2] [0.5] = Ok 0
        /\ apply self [0] [0] = Ok 1).
Proof.
  assert (Hgen : forall eta hyperparam_dict scores_pos scores_neg,
    length scores_pos = length scores_neg ->
    exists self,
      __init__ PairwiseLoss eta hyperparam_dict = Ok self
      /\ apply self scores_pos scores_neg
         = Ok (pairwise_formula (dict_get hyperparam_dict "margin" 1)
                 scores_pos scores_neg)).
  { intros eta d scores_pos scores_neg Hlen.
    destruct (pairwise_apply_eq eta d scores_pos scores_neg)
      as (self & Hinit & Happly & Hcheck).
    exists self. split; [done|]. rewrite Hcheck, Happly.
    apply Nat.eqb_eq in Hlen as Heqb. rewrite Heqb, andb_false_r.
    rewrite broadcast_same_length by (unfold tf.scalar_l; rewrite length_map; done).
    simpl. rewrite pairwise_tensor by done. reflexivity. }
  split; [exact Hgen|]. intros eta.
  destruct (Hgen eta {[ "margin" := 1 ]} [2] [0.5] eq_refl) as (self & Hinit & H1).
  destruct (Hgen eta {[ "margin" := 1 ]} [0] [0] eq_refl) as (self' & Hinit' & H2).
  rewrite Hinit in Hinit'. injection Hinit' as <-.
  exists self. split; [done|]. rewrite H1, H2.
  unfold dict_get. rewrite lookup_singleton_eq. unfold pairwise_formula, score.
  simpl. split; f_equal.
  - rewrite Rmax_left by lra. lra.
  - rewrite Rmax_right by lra. lra.
Qed.

Lemma pairwise_apply_formula_witness :
  length [1; 2] = length [3; 4]
  /\ exists self,
       __init__ PairwiseLoss 2 {[ "margin" := 5 ]} = Ok self
       /\ apply self [1; 2] [3; 4]
          = Ok (pairwise_formula (dict_get {[ "margin" := 5 ]} "margin" 1)
                  [1; 2] [3; 4]).
Proof.
  split; [reflexivity|].
  apply (proj1 pairwise_apply_formula 2%nat {[ "margin" := 5 ]} [1; 2] [3; 4]).
  reflexivity.
Defined.

(** C4.  On score tensors of one length, [AbsoluteMarginLoss.apply]
    returns the sum over the positions [i] of [max(0, margin +
    scores_neg[i]) - scores_pos[i]], whatever the margin; with margin 1 it
    returns -3 on [3.0] against [-2.0]. *)
Theorem absolute_margin_apply_formula :
  (forall (eta : nat) (hyperparam_dict : gmap string R)
          (scores_pos scores_neg : list R),
      length scores_pos = length scores_neg ->
      exists self,
        __init__ AbsoluteMarginLoss eta hyperparam_dict = Ok self
        /\ apply self scores_pos scores_neg
           = Ok (absolute_margin_formula (dict_get hyperparam_dict "margin" 1)
                   scores_pos scores_neg))
  /\ (forall eta : nat, exists self,
        __init__ AbsoluteMarginLoss eta {[ "margin" := 1 ]} = Ok self
        /\ apply self [3] [-2] = Ok (-3)).
Proof.
  assert (Hgen : forall eta hyperparam_dict scores_pos scores_neg,
    length scores_pos = length scores_neg ->
    exists self,
      __init__ AbsoluteMarginLoss eta hyperparam_dict = Ok self
      /\ apply self scores_pos scores_neg
         = Ok (absolute_margin_formula (dict_get hyperparam_dict "margin" 1)
                 scores_pos scores_neg)).
  { intros eta d scores_pos scores_neg Hlen.
    destruct (absolute_margin_apply_eq eta d scores_pos scores_neg)
      as (self & Hinit & Happly & Hcheck).
    exists self. split; [done|]. rewrite Hcheck, Happly.
    apply Nat.eqb_eq in Hlen as Heqb. rewrite Heqb, andb_false_r.
    rewrite broadcast_same_length
      by (unfold tf.maximum, tf.scalar_l; rewrite !length_map; done).
    simpl. rewrite absolute_margin_tensor by done. reflexivity. }
  split; [exact Hgen|]. intros eta.
  destruct (Hgen eta {[ "margin" := 1 ]} [3] [-2] eq_refl) as (self & Hinit & H1).
  exists self. split; [done|]. rewrite H1.
  unfold dict_get. rewrite lookup_singleton_eq. unfold absolute_margin_formula, score.
  simpl. f_equal. rewrite Rmax_left by lra. lra.
Qed.

Lemma absolute_margin_apply_formula_witness :
  length [1; 2] = length [3; 4]
  /\ exists self,
       __init__ AbsoluteMarginLoss 2 ∅ = Ok self
       /\ apply self [1; 2] [3; 4]
          = Ok (absolute_margin_formula (dict_get ∅ "margin" 1) [1; 2] [3; 4]).
Proof.
  split; [reflexivity|].
  apply (proj1 absolute_margin_apply_formula 2%nat ∅ [1; 2] [3; 4]).
  reflexivity.
Defined.

(** C3 (amended).  For every pair of score tensors, [NLLLoss._apply]
    returns the sum of [log(1 + exp(x))] over the concatenation of the
    negated positive scores with the negative scores, and so does
    [NLLLoss.apply] whenever the pair passes the size check, that is when
    [eta = 1] or the two lengths are equal; on [0.0] against [0.0] the
    result is [2 * log 2]. *)
Theorem nll_apply_formula :
  (forall (eta : nat) (hyperparam_dict : gmap string R)
          (scores_pos scores_neg : list R),
      exists self,
        __init__ NLLLoss eta hyperparam_dict = Ok self
        /\ _apply self scores_pos scores_neg = Ok (nll_formula scores_pos scores_neg)
        /\ (eta = 1%nat \/ length scores_pos = length scores_neg ->
            apply self scores_pos scores_neg
            = Ok (nll_formula scores_pos scores_neg)))
  /\ (forall (eta : nat) (hyperparam_dict : gmap string R), exists self,
        __init__ NLLLoss eta hyperparam_dict = Ok self
        /\ apply self [0] [0] = Ok (2 * ln 2)).
Proof.
  assert (Hgen : forall eta hyperparam_dict scores_pos scores_neg,
    exists self,
      __init__ NLLLoss eta hyperparam_dict = Ok self
      /\ _apply self scores_pos scores_neg = Ok (nll_formula scores_pos scores_neg)
      /\ (eta = 1%nat \/ length scores_pos = length scores_neg ->
          apply self scores_pos scores_neg
          = Ok (nll_formula scores_pos scores_neg))).
  { intros eta d scores_pos scores_neg.
    destruct (nll_apply_eq eta d scores_pos scores_neg)
      as (self & Hinit & Happly & Hcheck).
    exists self. split; [done|]. split; [done|]. rewrite Hcheck, Happly.
    intros [->|Hlen]; [reflexivity|].
    apply Nat.eqb_eq in Hlen. rewrite Hlen, andb_false_r. reflexivity. }
  split; [exact Hgen|]. intros eta d.
  destruct (Hgen eta d [0] [0]) as (self & Hinit & _ & H).
  exists self. split; [done|]. rewrite H by (right; reflexivity).
  unfold nll_formula, score. simpl. f_equal.
  rewrite Ropp_0, exp_0. replace (1 + 1) with 2 by lra. lra.
Qed.

Lemma nll_apply_formula_witness :
  (1%nat = 1%nat \/ length [1] = length [3; 4])
  /\ exists self,
       __init__ NLLLoss 1 ∅ = Ok self
       /\ apply self [1] [3; 4] = Ok (nll_formula [1] [3; 4]).
Proof.
  split; [left; reflexivity|].
  destruct (proj1 nll_apply_formula 1%nat ∅ [1] [3; 4]) as (self & Hinit & _ & H).
  exists self. split; [exact Hinit|]. apply H. left. reflexivity.
Defined.

(** C3, as stated, fails: NLLLoss built with [eta = 2] and applied to one
    positive and two negative scores raises instead of returning the sum. *)
Lemma nll_eta2_mismatch_raises :
  exists self,
    __init__ NLLLoss 2 ∅ = Ok self
    /\ apply self [0] [0; 0] = Raise ShapeMismatchError
    /\ apply self [0] [0; 0] <> Ok (nll_formula [0] [0; 0]).
Proof.
  eexists. split; [reflexivity|]. rewrite apply_unfold. simpl.
  split; [reflexivity|discriminate].
Qed.

End MarginLosses.

(** ** Construction and the registry *)

Lemma LOSS_REGISTRY_dom (loss_name : string) :
  is_Some (LOSS_REGISTRY !! loss_name) <-> In loss_name registered_names.
Proof.
  unfold LOSS_REGISTRY, register_loss, registered_names.
  rewrite !lookup_insert_is_Some, lookup_empty, is_Some_alt. simpl.
  intuition congruence.
Qed.

(** C7.  [Loss.__init__] turns a [KeyError] of [_init_hyperparams] into the
    constructor's exception, so a hyperparameter read without a default and
    absent from the configuration fails the construction itself and no
    instance reaches [apply].  The five classes read every hyperparameter
    of their [external_params] with a default: their construction always
    succeeds, stores a supplied value as it is, and stores the documented
    default for an omitted one (margin 1 for pairwise and absolute_margin,
    margin 3 and alpha 0.5 for self_adversarial, alpha 0.5 for
    nll-adversarial). *)
Theorem hyperparameters_at_construction :
  (forall init c eta hyperparam_dict key,
      init hyperparam_dict ∅ = Raise (KeyError key) ->
      Loss__init__ init c eta hyperparam_dict
      = Raise (MissingHyperparameterError key))
  /\ (forall c eta hyperparam_dict, exists self entry,
        __init__ c eta hyperparam_dict = Ok self
        /\ class_of self = c
        /\ _loss_parameters_eta self = eta
        /\ LOSS_REGISTRY !! name c = Some entry
        /\ forall param, In param (external_params entry) ->
             exists dflt,
               documented_default c param = Some dflt
               /\ _loss_parameters self !! param
                  = Some (dict_get hyperparam_dict param dflt)
               /\ (forall v, hyperparam_dict !! param = Some v ->
                     _loss_parameters self !! param = Some v)
               /\ (hyperparam_dict !! param = None ->
                     _loss_parameters self !! param = Some dflt)).
Proof.
  split.
  - intros init c eta d key Hinit. unfold Loss__init__. rewrite Hinit. reflexivity.
  - intros c eta d.
    assert (Hget : forall param dflt (params : gmap string R),
      params !! param = Some (dict_get d param dflt) ->
      params !! param = Some (dict_get d param dflt)
      /\ (forall v, d !! param = Some v -> params !! param = Some v)
      /\ (d !! param = None -> params !! param = Some dflt)).
    { intros param dflt params Hp. split; [done|]. unfold dict_get in Hp.
      split; [intros v Hv|intros Hv]; rewrite Hv in Hp; done. }
    destruct c; eexists; eexists;
      (split; [reflexivity|]); (split; [reflexivity|]); (split; [reflexivity|]);
      (split; [reflexivity|]); simpl; intros param Hin;
      repeat (destruct Hin as [<-|Hin]); try contradiction;
      eexists; (split; [reflexivity|]); apply Hget; clear Hget.
    all: repeat first [apply lookup_insert_eq | rewrite lookup_insert_ne by done].
Qed.

Lemma hyperparameters_at_construction_witness :
  _init_hyperparams_subscript "margin" {[ "alpha" := 2%R ]} ∅
    = Raise (KeyError "margin")
  /\ Loss__init__ (_init_hyperparams_subscript "margin") PairwiseLoss 2
       {[ "alpha" := 2%R ]}
     = Raise (MissingHyperparameterError "margin")
  /\ (exists self,
        __init__ SelfAdversarialLoss 2 {[ "margin" := 7%R ]} = Ok self
        /\ _loss_parameters self !! "margin" = Some 7%R
        /\ _loss_parameters self !! "alpha" = Some 0.5%R).
Proof.
  split; [reflexivity|]. split.
  - apply (proj1 hyperparameters_at_construction). reflexivity.
  - destruct (proj2 hyperparameters_at_construction SelfAdversarialLoss 2
                {[ "margin" := 7%R ]})
      as (self & entry & Hinit & _ & _ & Hentry & Hparams).
    vm_compute in Hentry. injection Hentry as <-.
    exists self. split; [exact Hinit|]. split.
    + destruct (Hparams "margin") as (dflt & _ & _ & Hgiven & _);
        [simpl; tauto|]. apply Hgiven. apply lookup_singleton_eq.
    + destruct (Hparams "alpha") as (dflt & Hdflt & _ & _ & Homitted);
        [simpl; tauto|]. injection Hdflt as <-.
      apply Homitted. apply lookup_singleton_ne. discriminate.
Defined.

(** C8.  [lookup] of each of the five registered names returns the class
    registered under it, whose construction succeeds for every [eta] and
    every configuration; [lookup] of any other name raises
    ConfigurationError. *)
Theorem lookup_registered_names (loss_name : string) :
  (In loss_name registered_names ->
     exists c, lookup loss_name = Ok c
       /\ name c = loss_name
       /\ forall eta hyperparam_dict, exists self,
            __init__ c eta hyperparam_dict = Ok self /\ class_of self = c)
  /\ (~ In loss_name registered_names ->
        lookup loss_name = Raise ConfigurationError)
  /\ (In loss_name registered_names <-> is_Some (LOSS_REGISTRY !! loss_name)).
Proof.
  split; [|split].
  - intros Hin. simpl in Hin.
    repeat (destruct Hin as [<-|Hin]); try contradiction;
      eexists; (split; [reflexivity|]); (split; [reflexivity|]);
      intros eta d; eexists; split; reflexivity.
  - intros Hnot. unfold lookup.
    destruct (LOSS_REGISTRY !! loss_name) as [entry|] eqn:Hentry; [|reflexivity].
    destruct Hnot. apply LOSS_REGISTRY_dom. rewrite Hentry. eauto.
  - symmetry. apply LOSS_REGISTRY_dom.
Qed.

Lemma lookup_registered_names_witness :
  In "nll-adversarial" registered_names
  /\ ~ In "hinge" registered_names
  /\ lookup "nll-adversarial" = Ok NLLOriginalLoss
  /\ lookup "hinge" = Raise ConfigurationError.
Proof.
  assert (Hin : In "nll-adversarial" registered_names) by (simpl; tauto).
  assert (Hout : ~ In "hinge" registered_names)
    by (simpl; intros H; repeat (destruct H as [H|H]; [discriminate H|]); exact H).
  split; [exact Hin|]. split; [exact Hout|].
  destruct (lookup_registered_names "nll-adversarial") as (Hreg & _ & _).
  destruct (lookup_registered_names "hinge") as (_ & Hunreg & _).
  split; [|exact (Hunreg Hout)].
  destruct (Hreg Hin) as (c & Hc & Hname & _).
  rewrite Hc. destruct c; try discriminate Hname. reflexivity.
Defined.

(** ** Tensors as tables *)

Section Tables.
Local Open Scope R_scope.

Lemma tabulate_ext {A : Type} n (f g : nat -> A) :
  (forall i, f i = g i) -> tabulate n f = tabulate n g.
Proof.
  revert f g. induction n as [|n IH]; intros f g Hfg; simpl; [reflexivity|].
  rewrite Hfg. f_equal. apply IH. intros i. apply Hfg.
Qed.

Lemma length_tabulate {A : Type} n (f : nat -> A) : length (tabulate n f) = n.
Proof. revert f. induction n as [|n IH]; intros f; simpl; [|rewrite IH]; done. Qed.

Lemma map_tabulate {A B : Type} (g : A -> B) n (f : nat -> A) :
  map g (tabulate n f) = tabulate n (fun i => g (f i)).
Proof.
  revert f. induction n as [|n IH]; intros f; simpl; [reflexivity|].
  rewrite IH. reflexivity.
Qed.

Lemma zip_with_tabulate {A B C : Type} (h : A -> B -> C) n
    (f : nat -> A) (g : nat -> B) :
  zip_with h (tabulate n f) (tabulate n g) = tabulate n (fun i => h (f i) (g i)).
Proof.
  revert f g. induction n as [|n IH]; intros f g; simpl; [reflexivity|].
  rewrite IH. reflexivity.
Qed.

Lemma reduce_sum_tabulate n (f : nat -> R) :
  tf.reduce_sum (tabulate n f) = sum_over n f.
Proof.
  revert f. induction n as [|n IH]; intros f; [reflexivity|].
  rewrite sum_over_shift. cbn [tabulate tf.reduce_sum foldr].
  fold (tf.reduce_sum (tabulate n (fun i => f (S i)))). rewrite IH. reflexivity.
Qed.

Lemma replicate_tabulate {A : Type} n (x : A) :
  replicate n x = tabulate n (fun _ => x).
Proof. induction n as [|n IH]; simpl; [|rewrite IH]; reflexivity. Qed.

Lemma score_drop n (t : list R) k : score (drop n t) k = score t (n + k).
Proof.
  unfold score. revert t. induction n as [|n IH]; intros t; [reflexivity|].
  destruct t as [|x t]; simpl; [destruct k; reflexivity|apply IH].
Qed.

Lemma take_tabulate n (t : list R) :
  (n <= length t)%nat -> take n t = tabulate n (score t).
Proof.
  revert t. induction n as [|n IH]; intros t Hn; [reflexivity|].
  destruct t as [|x t]; simpl in *; [lia|].
  rewrite IH by lia. reflexivity.
Qed.

(** The rows of a reshaped tensor, by positions. *)
Lemma rows_tabulate eta n (t : list R) :
  length t = (eta * n)%nat ->
  tf.rows eta n t = tabulate2 eta n (neg_matrix n t).
Proof.
  unfold tabulate2. revert t. induction eta as [|eta IH]; intros t Hlen;
    [reflexivity|].
  cbn [tf.rows tabulate]. f_equal.
  - rewrite take_tabulate by lia. apply tabulate_ext. intros j.
    unfold neg_matrix. reflexivity.
  - rewrite IH by (rewrite length_drop; lia).
    apply tabulate_ext. intros i. apply tabulate_ext. intros j.
    unfold neg_matrix. rewrite score_drop. f_equal. lia.
Qed.

Lemma map_tabulate2 (g : R -> R) eta n m :
  map (map g) (tabulate2 eta n m) = tabulate2 eta n (fun i j => g (m i j)).
Proof.
  unfold tabulate2. rewrite map_tabulate. apply tabulate_ext. intros i.
  apply map_tabulate.
Qed.

Lemma zip_with_tabulate2 (h : R -> R -> R) eta n m m' :
  zip_with (zip_with h) (tabulate2 eta n m) (tabulate2 eta n m')
  = tabulate2 eta n (fun i j => h (m i j) (m' i j)).
Proof.
  unfold tabulate2. rewrite zip_with_tabulate. apply tabulate_ext. intros i.
  apply zip_with_tabulate.
Qed.

Lemma reduce_sum2_tabulate2 eta n m :
  tf.reduce_sum2 (tabulate2 eta n m)
  = sum_over eta (fun i => sum_over n (m i)).
Proof.
  unfold tf.reduce_sum2, tabulate2. rewrite map_tabulate, reduce_sum_tabulate.
  apply sum_over_ext. intros i _. apply reduce_sum_tabulate.
Qed.

Lemma reduce_sum_axis0_tabulate2 eta n m :
  tf.reduce_sum_axis0 n (tabulate2 eta n m)
  = tabulate n (fun j => sum_over eta (fun i => m i j)).
Proof.
  unfold tf.reduce_sum_axis0, tabulate2. revert m.
  induction eta as [|eta IH]; intros m.
  - simpl. apply replicate_tabulate.
  - cbn [tabulate foldr]. rewrite IH, zip_with_tabulate.
    apply tabulate_ext. intros j. rewrite sum_over_shift. reflexivity.
Qed.

Lemma softmax_axis0_tabulate2 eta n m :
  tf.softmax_axis0 n (tabulate2 eta n m)
  = tabulate2 eta n
      (fun i j => exp (m i j) / sum_over eta (fun k => exp (m k j))).
Proof.
  unfold tf.softmax_axis0, tf.exp. cbv zeta.
  rewrite map_tabulate2, reduce_sum_axis0_tabulate2.
  unfold tabulate2. rewrite map_tabulate. apply tabulate_ext. intros i.
  apply zip_with_tabulate.
Qed.

End Tables.

(** ** The two adversarial losses *)

Section Adversarial.
Local Open Scope R_scope.

Lemma map_rows_tabulate2 (F : list R -> list R) (g : R -> R) eta n m :
  (forall row, F row = map g row) ->
  map F (tabulate2 eta n m) = tabulate2 eta n (fun i j => g (m i j)).
Proof.
  intros HF. rewrite <- map_tabulate2. apply map_ext. exact HF.
Qed.

Lemma reshape_ok (t : list R) eta n :
  length t = (eta * n)%nat ->
  tf.reshape t eta n = Ok (tabulate2 eta n (neg_matrix n t)).
Proof.
  intros Hlen. unfold tf.reshape. rewrite decide_True by done.
  rewrite rows_tabulate by done. reflexivity.
Qed.

Lemma reshape_fails (t : list R) eta n :
  length t <> (eta * n)%nat -> tf.reshape t eta n = Raise IncompatibleShapes.
Proof. intros Hlen. unfold tf.reshape. rewrite decide_False; done. Qed.

(** The weights computed from the reshaped negatives. *)
Lemma p_neg_tensor alpha eta n (scores_neg : list R) :
  tf.softmax_axis0 n
    (map (tf.scalar_l Rmult alpha) (tabulate2 eta n (neg_matrix n scores_neg)))
  = tabulate2 eta n (p_neg alpha eta n scores_neg).
Proof.
  rewrite (map_rows_tabulate2 _ (Rmult alpha)) by reflexivity.
  rewrite softmax_axis0_tabulate2. reflexivity.
Qed.

Lemma nll_adversarial_tensor alpha eta scores_pos scores_neg :
  let n := length scores_pos in
  let scores_neg_reshaped := tabulate2 eta n (neg_matrix n scores_neg) in
  tf.reduce_sum (tf.negative (tf.log (tf.sigmoid scores_pos)))
  + tf.reduce_sum2
      (zip_with (zip_with Rmult)
         (tf.softmax_axis0 n (map (tf.scalar_l Rmult alpha) scores_neg_reshaped))
         (map (fun row => tf.negative (tf.log (tf.sigmoid (tf.negative row))))
            scores_neg_reshaped))
  = nll_adversarial_formula alpha eta scores_pos scores_neg.
Proof.
  intros n M. subst M. rewrite p_neg_tensor.
  rewrite (map_rows_tabulate2 _ (fun x => - ln (tf.sigmoid1 (- x))))
    by (intros row; unfold tf.negative, tf.log, tf.sigmoid;
        rewrite !map_map; reflexivity).
  rewrite zip_with_tabulate2, reduce_sum2_tabulate2.
  unfold tf.negative, tf.log, tf.sigmoid. rewrite !map_map, reduce_sum_map.
  reflexivity.
Qed.

Lemma self_adversarial_tensor margin alpha eta scores_pos scores_neg :
  let n := length scores_pos in
  let scores_neg_reshaped := tabulate2 eta n (neg_matrix n scores_neg) in
  tf.reduce_sum
    (tf.negative
       (tf.log (tf.sigmoid (tf.scalar_l Rminus margin (tf.negative scores_pos)))))
  - tf.reduce_sum2
      (zip_with (zip_with Rmult)
         (tf.softmax_axis0 n (map (tf.scalar_l Rmult alpha) scores_neg_reshaped))
         (map (fun row =>
                 tf.log (tf.sigmoid (tf.scalar_r Rminus (tf.negative row) margin)))
            scores_neg_reshaped))
  = self_adversarial_formula margin alpha eta scores_pos scores_neg.
Proof.
  intros n M. subst M. rewrite p_neg_tensor.
  rewrite (map_rows_tabulate2 _ (fun x => ln (tf.sigmoid1 (- x - margin))))
    by (intros row; unfold tf.negative, tf.log, tf.sigmoid, tf.scalar_r;
        rewrite !map_map; reflexivity).
  rewrite zip_with_tabulate2, reduce_sum2_tabulate2.
  unfold tf.negative, tf.log, tf.sigmoid, tf.scalar_l.
  rewrite !map_map, reduce_sum_map. reflexivity.
Qed.

Lemma nll_adversarial_apply_eq eta hyperparam_dict scores_pos scores_neg :
  exists self,
    __init__ NLLOriginalLoss eta hyperparam_dict = Ok self
    /\ _inputs_check self scores_pos scores_neg = Ok self
    /\ _dependencies self = []
    /\ apply self scores_pos scores_neg = _apply self scores_pos scores_neg
    /\ (length scores_neg = (eta * length scores_pos)%nat ->
        _apply self scores_pos scores_neg
        = Ok (nll_adversarial_formula (dict_get hyperparam_dict "alpha" 0.5) eta
                scores_pos scores_neg))
    /\ (length scores_neg <> (eta * length scores_pos)%nat ->
        _apply self scores_pos scores_neg = Raise IncompatibleShapes).
Proof.
  eexists. split; [reflexivity|]. split; [reflexivity|]. split; [reflexivity|].
  split; [apply apply_unfold|].
  unfold _apply, getitem. simpl. rewrite lookup_insert_eq. simpl. split.
  - intros Hlen. rewrite reshape_ok by done. simpl.
    rewrite nll_adversarial_tensor. reflexivity.
  - intros Hlen. rewrite reshape_fails by done. reflexivity.
Qed.

Lemma self_adversarial_apply_eq eta hyperparam_dict scores_pos scores_neg :
  exists self,
    __init__ SelfAdversarialLoss eta hyperparam_dict = Ok self
    /\ _inputs_check self scores_pos scores_neg = Ok self
    /\ _dependencies self = []
    /\ apply self scores_pos scores_neg = _apply self scores_pos scores_neg
    /\ (length scores_neg = (eta * length scores_pos)%nat ->
        _apply self scores_pos scores_neg
        = Ok (self_adversarial_formula (dict_get hyperparam_dict "margin" 3)
                (dict_get hyperparam_dict "alpha" 0.5) eta scores_pos scores_neg))
    /\ (length scores_neg <> (eta * length scores_pos)%nat ->
        _apply self scores_pos scores_neg = Raise IncompatibleShapes).
Proof.
  eexists. split; [reflexivity|]. split; [reflexivity|]. split; [reflexivity|].
  split; [apply apply_unfold|].
  unfold _apply, getitem. simpl.
  rewrite (lookup_insert_ne _ "alpha" "margin") by done.
  rewrite !lookup_insert_eq. simpl. split.
  - intros Hlen. rewrite reshape_ok by done. simpl.
    rewrite self_adversarial_tensor. reflexivity.
  - intros Hlen. rewrite reshape_fails by done. reflexivity.
Qed.

(** C5.  When [scores_neg] holds [eta] negatives for each of the [n]
    positives, [NLLOriginalLoss.apply] (nll-adversarial) returns
    [sum(-log(sigmoid(scores_pos))) + sum(p_neg * -log(sigmoid(-M)))],
    with [M] the negatives reshaped to [eta] rows of [n] columns and
    [p_neg] the softmax of [alpha * M] down each column. *)
Theorem nll_adversarial_apply_formula (eta : nat) (hyperparam_dict : gmap string R)
    (scores_pos scores_neg : list R) :
  length scores_neg = (eta * length scores_pos)%nat ->
  exists self,
    __init__ NLLOriginalLoss eta hyperparam_dict = Ok self
    /\ apply self scores_pos scores_neg
       = Ok (nll_adversarial_formula (dict_get hyperparam_dict "alpha" 0.5) eta
               scores_pos scores_neg).
Proof.
  intros Hlen.
  destruct (nll_adversarial_apply_eq eta hyperparam_dict scores_pos scores_neg)
    as (self & Hinit & _ & _ & Happly & Hok & _).
  exists self. split; [done|]. rewrite Happly. apply Hok. done.
Qed.

Lemma nll_adversarial_apply_formula_witness :
  length [2; 3; 4; 5] = (2 * length [1; 6])%nat
  /\ exists self,
       __init__ NLLOriginalLoss 2 ∅ = Ok self
       /\ apply self [1; 6] [2; 3; 4; 5]
          = Ok (nll_adversarial_formula (dict_get ∅ "alpha" 0.5) 2
                  [1; 6] [2; 3; 4; 5]).
Proof.
  split; [reflexivity|].
  apply (nll_adversarial_apply_formula 2 ∅ [1; 6] [2; 3; 4; 5]). reflexivity.
Defined.

(** C6.  When [scores_neg] holds [eta] negatives for each of the [n]
    positives, [SelfAdversarialLoss.apply] returns
    [sum(-log(sigmoid(margin - (-scores_pos))))
     - sum(p_neg * log(sigmoid(-M - margin)))],
    with [M] the negatives reshaped to [eta] rows of [n] columns and
    [p_neg] the softmax of [alpha * M] down each column. *)
Theorem self_adversarial_apply_formula (eta : nat) (hyperparam_dict : gmap string R)
    (scores_pos scores_neg : list R) :
  length scores_neg = (eta * length scores_pos)%nat ->
  exists self,
    __init__ SelfAdversarialLoss eta hyperparam_dict = Ok self
    /\ apply self scores_pos scores_neg
       = Ok (self_adversarial_formula (dict_get hyperparam_dict "margin" 3)
               (dict_get hyperparam_dict "alpha" 0.5) eta scores_pos scores_neg).
Proof.
  intros Hlen.
  destruct (self_adversarial_apply_eq eta hyperparam_dict scores_pos scores_neg)
    as (self & Hinit & _ & _ & Happly & Hok & _).
  exists self. split; [done|]. rewrite Happly. apply Hok. done.
Qed.

Lemma self_adversarial_apply_formula_witness :
  length [2; 3; 4; 5] = (2 * length [1; 6])%nat
  /\ exists self,
       __init__ SelfAdversarialLoss 2 {[ "margin" := 4 ]} = Ok self
       /\ apply self [1; 6] [2; 3; 4; 5]
          = Ok (self_adversarial_formula
                  (dict_get {[ "margin" := 4 ]} "margin" 3)
                  (dict_get {[ "margin" := 4 ]} "alpha" 0.5) 2
                  [1; 6] [2; 3; 4; 5]).
Proof.
  split; [reflexivity|].
  apply (self_adversarial_apply_formula 2 {[ "margin" := 4 ]} [1; 6] [2; 3; 4; 5]).
  reflexivity.
Defined.

Lemma p_neg_eta1 alpha n scores_neg j : p_neg alpha 1 n scores_neg 0 j = 1.
Proof.
  unfold p_neg. simpl. rewrite Rplus_0_l. unfold Rdiv.
  apply Rinv_r. apply Rgt_not_eq, exp_pos.
Qed.

Lemma nll_adversarial_formula_eta1 alpha scores_pos scores_neg :
  length scores_pos = length scores_neg ->
  nll_adversarial_formula alpha 1 scores_pos scores_neg
  = nll_unweighted_formula scores_pos scores_neg.
Proof.
  intros Hlen. unfold nll_adversarial_formula, nll_unweighted_formula.
  cbv zeta. rewrite <- Hlen. f_equal. simpl. rewrite Rplus_0_l.
  apply sum_over_ext. intros j _. rewrite p_neg_eta1. unfold neg_matrix. simpl.
  lra.
Qed.

Lemma self_adversarial_formula_eta1 margin alpha scores_pos scores_neg :
  length scores_pos = length scores_neg ->
  self_adversarial_formula margin alpha 1 scores_pos scores_neg
  = self_unweighted_formula margin scores_pos scores_neg.
Proof.
  intros Hlen. unfold self_adversarial_formula, self_unweighted_formula.
  cbv zeta. rewrite <- Hlen. f_equal. simpl. rewrite Rplus_0_l.
  apply sum_over_ext. intros j _. rewrite p_neg_eta1. unfold neg_matrix. simpl.
  lra.
Qed.

(** C9.  With [eta = 1] and score tensors of one length, the weights
    [p_neg] that the two adversarial losses compute are all 1, and each
    loss is its formula without the weighting: nll-adversarial returns
    [sum(-log(sigmoid(scores_pos))) + sum(-log(sigmoid(-scores_neg)))], and
    self_adversarial returns [sum(-log(sigmoid(margin - (-scores_pos))))
    - sum(log(sigmoid(-scores_neg - margin)))]. *)
Theorem adversarial_eta1_unweighted (hyperparam_dict : gmap string R)
    (scores_pos scores_neg : list R) :
  length scores_pos = length scores_neg ->
  (exists scores_neg_reshaped,
      tf.reshape scores_neg 1 (length scores_pos) = Ok scores_neg_reshaped
      /\ forall alpha,
           tf.softmax_axis0 (length scores_pos)
             (map (tf.scalar_l Rmult alpha) scores_neg_reshaped)
           = [replicate (length scores_pos) 1])
  /\ (exists self,
        __init__ NLLOriginalLoss 1 hyperparam_dict = Ok self
        /\ apply self scores_pos scores_neg
           = Ok (nll_unweighted_formula scores_pos scores_neg))
  /\ (exists self,
        __init__ SelfAdversarialLoss 1 hyperparam_dict = Ok self
        /\ apply self scores_pos scores_neg
           = Ok (self_unweighted_formula (dict_get hyperparam_dict "margin" 3)
                   scores_pos scores_neg)).
Proof.
  intros Hlen.
  assert (Hshape : length scores_neg = (1 * length scores_pos)%nat) by lia.
  split; [|split].
  - eexists. split; [apply reshape_ok; done|]. intros alpha.
    rewrite p_neg_tensor. unfold tabulate2. simpl. f_equal.
    rewrite replicate_tabulate. apply tabulate_ext. intros j. apply p_neg_eta1.
  - destruct (nll_adversarial_apply_eq 1 hyperparam_dict scores_pos scores_neg)
      as (self & Hinit & _ & _ & Happly & Hok & _).
    exists self. split; [done|].
    rewrite Happly, Hok, nll_adversarial_formula_eta1 by done. reflexivity.
  - destruct (self_adversarial_apply_eq 1 hyperparam_dict scores_pos scores_neg)
      as (self & Hinit & _ & _ & Happly & Hok & _).
    exists self. split; [done|].
    rewrite Happly, Hok, self_adversarial_formula_eta1 by done. reflexivity.
Qed.

Lemma adversarial_eta1_unweighted_witness :
  length [1; 6] = length [2; 3]
  /\ exists self,
       __init__ NLLOriginalLoss 1 ∅ = Ok self
       /\ apply self [1; 6] [2; 3] = Ok (nll_unweighted_formula [1; 6] [2; 3]).
Proof.
  split; [reflexivity|].
  apply (adversarial_eta1_unweighted ∅ [1; 6] [2; 3]). reflexivity.
Defined.

(** C10.  A class that declares [require_same_size_pos_neg] false
    (nll-adversarial, self_adversarial) gets no size dependency from
    [_inputs_check], whatever [eta]; its [apply] returns a loss exactly on
    the inputs with [len(scores_neg) = eta * len(scores_pos)], and on every
    other input the reshape to [eta] rows of [len(scores_pos)] columns
    fails, and [apply] with it. *)
Theorem adversarial_reshape_domain (c : loss_class) (eta : nat)
    (hyperparam_dict : gmap string R) (scores_pos scores_neg : list R) :
  require_same_size_pos_neg c = Ok false ->
  exists self,
    __init__ c eta hyperparam_dict = Ok self
    /\ (exists checked,
          _inputs_check self scores_pos scores_neg = Ok checked
          /\ _dependencies checked = [])
    /\ (length scores_neg <> (eta * length scores_pos)%nat ->
        tf.reshape scores_neg eta (length scores_pos) = Raise IncompatibleShapes
        /\ apply self scores_pos scores_neg = Raise IncompatibleShapes)
    /\ (length scores_neg = (eta * length scores_pos)%nat ->
        exists loss, apply self scores_pos scores_neg = Ok loss).
Proof.
  rewrite require_same_size_pos_neg_eq. intros [= Hc].
  destruct c; try discriminate.
  - destruct (nll_adversarial_apply_eq eta hyperparam_dict scores_pos scores_neg)
      as (self & Hinit & Hcheck & Hdeps & Happly & Hok & Hbad).
    exists self. split; [done|]. split; [eauto|]. rewrite Happly. split.
    + intros Hlen. split; [apply reshape_fails; done|apply Hbad; done].
    + intros Hlen. rewrite Hok by done. eauto.
  - destruct (self_adversarial_apply_eq eta hyperparam_dict scores_pos scores_neg)
      as (self & Hinit & Hcheck & Hdeps & Happly & Hok & Hbad).
    exists self. split; [done|]. split; [eauto|]. rewrite Happly. split.
    + intros Hlen. split; [apply reshape_fails; done|apply Hbad; done].
    + intros Hlen. rewrite Hok by done. eauto.
Qed.

Lemma adversarial_reshape_domain_witness :
  require_same_size_pos_neg SelfAdversarialLoss = Ok false
  /\ length [2; 3; 4] <> (2 * length [1])%nat
  /\ exists self,
       __init__ SelfAdversarialLoss 2 ∅ = Ok self
       /\ apply self [1] [2; 3; 4] = Raise IncompatibleShapes.
Proof.
  split; [reflexivity|]. split; [discriminate|].
  destruct (adversarial_reshape_domain SelfAdversarialLoss 2 ∅ [1] [2; 3; 4])
    as (self & Hinit & _ & Hbad & _); [reflexivity|].
  exists self. split; [exact Hinit|]. apply Hbad. discriminate.
Defined.

End Adversarial.

(** * Further properties of the module *)

(** ** The registry after loading *)

(** X1.  After the five decorators have run, the registry holds five
    entries, one per class: the entry under the name of a class has that
    class as its handle, the handle of the entry under a key has that key
    as its name, and two classes never share a name. *)
Theorem LOSS_REGISTRY_round_trip :
  (forall c, exists entry,
      LOSS_REGISTRY !! name c = Some entry /\ class_handle entry = c)
  /\ (forall key entry,
        LOSS_REGISTRY !! key = Some entry -> name (class_handle entry) = key)
  /\ size LOSS_REGISTRY = 5
  /\ (forall c c', name c = name c' -> c = c').
Proof.
  split; [|split; [|split]].
  - intros c. destruct c; eexists; split; reflexivity.
  - intros key entry H. unfold LOSS_REGISTRY, register_loss in H.
    repeat (apply lookup_insert_Some in H;
            destruct H as [[<- <-]|[_ H]]; [reflexivity|]).
    rewrite lookup_empty in H. discriminate.
  - unfold LOSS_REGISTRY, register_loss.
    rewrite !map_size_insert_None, map_size_empty; [reflexivity|..];
      repeat first [apply lookup_empty | rewrite lookup_insert_ne by done].
  - intros c c' H. destruct c, c'; try reflexivity; discriminate H.
Qed.

Lemma LOSS_REGISTRY_round_trip_witness :
  LOSS_REGISTRY !! "nll"
    = Some {| class_handle := NLLLoss; external_params := [];
              class_params := {[ "require_same_size_pos_neg" := true ]} |}
  /\ name NLLLoss = "nll".
Proof.
  split; [reflexivity|].
  exact (proj1 (proj2 LOSS_REGISTRY_round_trip) "nll" _ eq_refl).
Defined.

(** ** Construction *)

(** X2.  An instance stores exactly the hyperparameters that its class
    declares in [external_params]: the keys of [_loss_parameters] (beside
    ['eta']) are those names and no other key of the configuration is
    copied. *)
Theorem loss_parameters_keys (c : loss_class) (eta : nat)
    (hyperparam_dict : gmap string R) :
  exists self entry,
    __init__ c eta hyperparam_dict = Ok self
    /\ LOSS_REGISTRY !! name c = Some entry
    /\ forall key,
         is_Some (_loss_parameters self !! key) <-> In key (external_params entry).
Proof.
  destruct c; eexists; eexists; (split; [reflexivity|]); (split; [reflexivity|]);
    intros key; simpl; rewrite ?lookup_insert_is_Some, lookup_empty, is_Some_alt;
    intuition congruence.
Qed.

(** X3.  Construction reads the configuration only at the names in
    [external_params]: two configurations that agree there build the same
    instance, so unknown keys are ignored. *)
Theorem __init___ignores_other_keys (c : loss_class) (eta : nat)
    (hyperparam_dict hyperparam_dict' : gmap string R) :
  (forall entry param,
      LOSS_REGISTRY !! name c = Some entry ->
      In param (external_params entry) ->
      hyperparam_dict !! param = hyperparam_dict' !! param) ->
  __init__ c eta hyperparam_dict = __init__ c eta hyperparam_dict'.
Proof.
  intros Hagree.
  assert (Hget : forall param dflt entry,
    LOSS_REGISTRY !! name c = Some entry -> In param (external_params entry) ->
    dict_get hyperparam_dict param dflt = dict_get hyperparam_dict' param dflt).
  { intros param dflt entry Hentry Hin. unfold dict_get.
    rewrite (Hagree entry param Hentry Hin). reflexivity. }
  destruct c; unfold __init__, Loss__init__, _init_hyperparams;
    try reflexivity;
    repeat match goal with
    | |- context [dict_get hyperparam_dict ?p ?v] =>
        rewrite (Hget p v _ eq_refl) by (simpl; tauto)
    end; reflexivity.
Qed.

Lemma __init___ignores_other_keys_witness :
  __init__ PairwiseLoss 2 {[ "margin" := 2%R ]}
  = __init__ PairwiseLoss 2 (<[ "gamma" := 9%R ]> {[ "margin" := 2%R ]}).
Proof.
  apply __init___ignores_other_keys. intros entry param Hentry Hin.
  vm_compute in Hentry. injection Hentry as <-. simpl in Hin.
  destruct Hin as [<-|[]]. rewrite lookup_insert_ne by discriminate.
  reflexivity.
Defined.

(** ** [get_state] and [_inputs_check] *)

Lemma _inputs_check_as_dependencies (self : Loss) (scores_pos scores_neg : list R) :
  _inputs_check self scores_pos scores_neg
  = (deps ← _inputs_check_dependencies LOSS_REGISTRY (name (class_of self))
             (_loss_parameters_eta self) scores_pos scores_neg;
     Ok {| class_of := class_of self;
           _loss_parameters_eta := _loss_parameters_eta self;
           _loss_parameters := _loss_parameters self;
           _dependencies := deps |}).
Proof.
  unfold _inputs_check, _inputs_check_dependencies, require_same_size_pos_neg.
  destruct (getitem LOSS_REGISTRY (name (class_of self))) as [entry|e];
    [|reflexivity].
  simpl. destruct (getitem (class_params entry) _); reflexivity.
Qed.

(** X4.  For an instance of any of the five classes [get_state] never
    raises: it returns the declared flag for
    ['require_same_size_pos_neg'], which is the flag that [_inputs_check]
    reads, and [None] for every other name, the hyperparameters and
    ['eta'] included. *)
Theorem get_state_of_class (c : loss_class) (param_name : string) :
  exists flag,
    require_same_size_pos_neg c = Ok flag
    /\ get_state LOSS_REGISTRY (name c) param_name
       = inr (if decide (param_name = "require_same_size_pos_neg")
              then Some flag else None).
Proof.
  exists (declared_same_size c). split; [apply require_same_size_pos_neg_eq|].
  unfold get_state.
  destruct (LOSS_REGISTRY_class c) as (entry & Hentry & _ & Hflag).
  rewrite Hentry. f_equal. case_decide as Hparam; [subst; exact Hflag|].
  clear Hflag. unfold LOSS_REGISTRY, register_loss in Hentry.
  repeat (apply lookup_insert_Some in Hentry;
          destruct Hentry as [[_ <-]|[_ Hentry]];
          [simpl; unfold default_class_params;
           apply lookup_singleton_ne; congruence|]).
  rewrite lookup_empty in Hentry. discriminate.
Qed.

(** X5.  What a missing key does.  With a name that is not registered, as
    the name of the abstract class [Loss] itself, [get_state] raises its
    exception and [_inputs_check] raises [KeyError] on the name.  With a
    registered class whose [class_params] lack
    ['require_same_size_pos_neg'], [get_state] returns [None] while
    [_inputs_check] raises [KeyError] on the flag, whatever [eta] and the
    scores. *)
Theorem missing_key_behaviour (registry : gmap string registry_entry)
    (self_name : string) (eta : nat) (scores_pos scores_neg : list R) :
  (registry !! self_name = None ->
     (forall param_name,
         get_state registry self_name param_name = inl (InvalidKey self_name))
     /\ _inputs_check_dependencies registry self_name eta scores_pos scores_neg
        = Raise (KeyError self_name))
  /\ (forall entry,
        registry !! self_name = Some entry ->
        class_params entry !! "require_same_size_pos_neg" = None ->
        get_state registry self_name "require_same_size_pos_neg" = inr None
        /\ _inputs_check_dependencies registry self_name eta scores_pos scores_neg
           = Raise (KeyError "require_same_size_pos_neg"))
  /\ LOSS_REGISTRY !! Loss_name = None.
Proof.
  unfold get_state, _inputs_check_dependencies, getitem.
  split; [|split].
  - intros ->. split; reflexivity.
  - intros entry -> Hflag. simpl. rewrite Hflag. split; reflexivity.
  - reflexivity.
Qed.

Lemma missing_key_behaviour_witness :
  LOSS_REGISTRY !! Loss_name = None
  /\ _inputs_check_dependencies LOSS_REGISTRY Loss_name 2 [0%R] [0%R; 0%R]
     = Raise (KeyError Loss_name)
  /\ get_state (register_loss "hinge" [] ∅ PairwiseLoss ∅) "hinge"
       "require_same_size_pos_neg" = inr None
  /\ _inputs_check_dependencies (register_loss "hinge" [] ∅ PairwiseLoss ∅)
       "hinge" 2 [0%R] [0%R; 0%R]
     = Raise (KeyError "require_same_size_pos_neg").
Proof.
  split; [reflexivity|]. split.
  - apply (missing_key_behaviour LOSS_REGISTRY Loss_name 2 [0%R] [0%R; 0%R]).
    reflexivity.
  - destruct (missing_key_behaviour (register_loss "hinge" [] ∅ PairwiseLoss ∅)
                "hinge" 2 [0%R] [0%R; 0%R]) as (_ & Hflag & _).
    apply (Hflag {| class_handle := PairwiseLoss; external_params := [];
                    class_params := ∅ |}); reflexivity.
Defined.

(** X6.  [_inputs_check] starts from an empty list on every call: the
    dependencies of an earlier call are dropped, at most one assertion is
    kept, and the class, [eta] and the hyperparameters of the instance are
    unchanged.  The assertion is there exactly when the class declares the
    flag and [eta] is not 1, and it holds exactly when the two lengths are
    equal. *)
Theorem _inputs_check_resets (self : Loss) (scores_pos scores_neg : list R) :
  exists checked flag,
    _inputs_check self scores_pos scores_neg = Ok checked
    /\ require_same_size_pos_neg (class_of self) = Ok flag
    /\ class_of checked = class_of self
    /\ _loss_parameters_eta checked = _loss_parameters_eta self
    /\ _loss_parameters checked = _loss_parameters self
    /\ _dependencies checked
       = (if flag && negb (_loss_parameters_eta self =? 1)
          then [bool_decide (length scores_pos = length scores_neg)] else [])
    /\ (forall scores_pos' scores_neg',
          _inputs_check checked scores_pos' scores_neg'
          = _inputs_check self scores_pos' scores_neg').
Proof.
  eexists. exists (declared_same_size (class_of self)).
  split; [apply _inputs_check_eq|].
  split; [apply require_same_size_pos_neg_eq|]. simpl.
  split; [reflexivity|]. split; [reflexivity|]. split; [reflexivity|]. split.
  - destruct (declared_same_size _ && _); [|reflexivity]. f_equal.
    destruct (Nat.eqb_spec (length scores_pos) (length scores_neg)); symmetry;
      [apply bool_decide_eq_true_2|apply bool_decide_eq_false_2]; done.
  - intros scores_pos' scores_neg'. rewrite !_inputs_check_eq. reflexivity.
Qed.

(** ** The outcomes of [apply] *)

Lemma apply_outcome_same_size c eta hyperparam_dict scores_pos scores_neg :
  declared_same_size c = true ->
  exists self,
    __init__ c eta hyperparam_dict = Ok self
    /\ ((exists loss, apply self scores_pos scores_neg = Ok loss)
        <-> apply_returns c eta (length scores_pos) (length scores_neg))
    /\ (apply self scores_pos scores_neg = Raise ShapeMismatchError
        <-> eta <> 1 /\ length scores_pos <> length scores_neg)
    /\ ((exists loss, apply self scores_pos scores_neg = Ok loss)
        \/ apply self scores_pos scores_neg = Raise ShapeMismatchError
        \/ apply self scores_pos scores_neg = Raise IncompatibleShapes).
Proof.
  intros Hc.
  destruct (_apply_same_size_cases c eta hyperparam_dict scores_pos scores_neg Hc)
    as (self & Hinit & Happly & _ & Hok & Hbad).
  exists self. split; [done|]. rewrite Happly. clear Happly Hinit.
  set (lp := length scores_pos) in *. set (ln := length scores_neg) in *.
  assert (Hret : apply_returns c eta lp ln
                 <-> (eta = 1 \/ lp = ln)
                     /\ (c = NLLLoss \/ lp = ln \/ lp = 1 \/ ln = 1)).
  { destruct c; try discriminate Hc; simpl; intuition congruence. }
  rewrite Hret. clear Hret.
  assert (Hdec : (c = NLLLoss \/ lp = ln \/ lp = 1 \/ ln = 1)
                 \/ (c <> NLLLoss /\ lp <> ln /\ lp <> 1 /\ ln <> 1)).
  { destruct c; try discriminate Hc; [|left; tauto|];
      (destruct (decide (lp = ln)); [left; tauto|]);
      (destruct (decide (lp = 1)); [left; tauto|]);
      (destruct (decide (ln = 1)); [left; tauto|]);
      right; repeat split; done. }
  destruct (Nat.eqb_spec eta 1) as [Heta|Heta],
           (Nat.eqb_spec lp ln) as [Hlen|Hlen]; simpl.
  4: { split; [|split]; [|tauto|tauto].
       split; [intros [? [=]]|tauto]. }
  all: destruct Hdec as [H|H];
    [destruct (Hok H) as [loss ->]|rewrite Hbad by tauto].
  all: split; [|split]; try (right; right; reflexivity); try (left; eauto).
  all: split; try (intros [? [=]]); try (intros [=]); try tauto; eauto.
Qed.

(** X7.  The outcome of [apply] on an instance of any of the five classes
    is decided by [eta] and the two lengths.  It returns a loss exactly on
    the lengths of [apply_returns]; it raises ShapeMismatchError exactly
    when the class declares the size check, [eta] is not 1 and the lengths
    differ; in every other case an operation of the formula rejects the
    shapes.  It raises nothing else: no [KeyError] reaches the caller. *)
Theorem apply_outcome (c : loss_class) (eta : nat)
    (hyperparam_dict : gmap string R) (scores_pos scores_neg : list R) :
  exists self,
    __init__ c eta hyperparam_dict = Ok self
    /\ ((exists loss, apply self scores_pos scores_neg = Ok loss)
        <-> apply_returns c eta (length scores_pos) (length scores_neg))
    /\ (apply self scores_pos scores_neg = Raise ShapeMismatchError
        <-> require_same_size_pos_neg c = Ok true
            /\ eta <> 1 /\ length scores_pos <> length scores_neg)
    /\ ((exists loss, apply self scores_pos scores_neg = Ok loss)
        \/ apply self scores_pos scores_neg = Raise ShapeMismatchError
        \/ apply self scores_pos scores_neg = Raise IncompatibleShapes).
Proof.
  rewrite require_same_size_pos_neg_eq.
  destruct (declared_same_size c) eqn:Hc.
  - destruct (apply_outcome_same_size c eta hyperparam_dict scores_pos scores_neg Hc)
      as (self & Hinit & Hret & Hraise & Hcases).
    exists self. split; [done|]. split; [done|]. split; [|done].
    rewrite Hraise. tauto.
  - assert (Hadv : exists self,
      __init__ c eta hyperparam_dict = Ok self
      /\ (length scores_neg = eta * length scores_pos ->
          exists loss, apply self scores_pos scores_neg = Ok loss)
      /\ (length scores_neg <> eta * length scores_pos ->
          apply self scores_pos scores_neg = Raise IncompatibleShapes)).
    { destruct c; try discriminate Hc.
      - destruct (nll_adversarial_apply_eq eta hyperparam_dict scores_pos scores_neg)
          as (self & Hinit & _ & _ & Happly & Hok & Hbad).
        exists self. rewrite Happly. split; [done|]. split; [|done].
        intros Hlen. rewrite Hok by done. eauto.
      - destruct (self_adversarial_apply_eq eta hyperparam_dict scores_pos scores_neg)
          as (self & Hinit & _ & _ & Happly & Hok & Hbad).
        exists self. rewrite Happly. split; [done|]. split; [|done].
        intros Hlen. rewrite Hok by done. eauto. }
    destruct Hadv as (self & Hinit & Hok & Hbad).
    exists self. split; [done|].
    assert (Hret : apply_returns c eta (length scores_pos) (length scores_neg)
                   <-> length scores_neg = eta * length scores_pos)
      by (destruct c; try discriminate Hc; reflexivity).
    rewrite Hret.
    destruct (decide (length scores_neg = eta * length scores_pos)) as [Hlen|Hlen].
    + destruct (Hok Hlen) as [loss ->].
      split; [split; eauto|]. split; [|left; eauto].
      split; [intros [=]|intros ([=] & _)].
    + rewrite (Hbad Hlen).
      split; [split; [intros [? [=]]|done]|]. split; [|right; right; reflexivity].
      split; [intros [=]|intros ([=] & _)].
Qed.

Lemma apply_outcome_witness :
  exists self,
    __init__ AbsoluteMarginLoss 1 ∅ = Ok self
    /\ exists loss, apply self [1%R; 2%R; 3%R] [4%R] = Ok loss.
Proof.
  destruct (apply_outcome AbsoluteMarginLoss 1 ∅ [1%R; 2%R; 3%R] [4%R])
    as (self & Hinit & Hret & _).
  exists self. split; [exact Hinit|]. apply Hret. simpl. right. tauto.
Defined.

(** ** Sums, again *)

Section MoreSums.
Local Open Scope R_scope.

Lemma sum_over_nonneg n f :
  (forall i, (i < n)%nat -> 0 <= f i) -> 0 <= sum_over n f.
Proof.
  induction n as [|n IH]; intros Hf; simpl; [lra|].
  assert (0 <= sum_over n f) by (apply IH; intros; apply Hf; lia).
  assert (0 <= f n) by (apply Hf; lia). lra.
Qed.

Lemma sum_over_le n f g :
  (forall i, (i < n)%nat -> f i <= g i) -> sum_over n f <= sum_over n g.
Proof.
  induction n as [|n IH]; intros Hfg; simpl; [lra|].
  assert (sum_over n f <= sum_over n g) by (apply IH; intros; apply Hfg; lia).
  assert (f n <= g n) by (apply Hfg; lia). lra.
Qed.

Lemma sum_over_zero_iff n f :
  (forall i, (i < n)%nat -> 0 <= f i) ->
  sum_over n f = 0 <-> forall i, (i < n)%nat -> f i = 0.
Proof.
  induction n as [|n IH]; intros Hf; simpl.
  - split; [intros _ i Hi; lia|reflexivity].
  - assert (Hs : 0 <= sum_over n f)
      by (apply sum_over_nonneg; intros; apply Hf; lia).
    assert (Hn : 0 <= f n) by (apply Hf; lia).
    split.
    + intros Hsum i Hi. assert (Hz : sum_over n f = 0) by lra.
      destruct (decide (i = n)) as [->|Hne]; [lra|].
      apply IH; [intros; apply Hf; lia|exact Hz|lia].
    + intros Hall. rewrite (proj2 (IH (fun i Hi => Hf i (Nat.lt_lt_succ_r _ _ Hi)))),
        Hall by (intros; try apply Hall; lia). lra.
Qed.

Lemma sum_over_const0 n : sum_over n (fun _ => 0) = 0.
Proof. induction n as [|n IH]; simpl; [|rewrite IH]; lra. Qed.

Lemma sum_over_const n c : sum_over n (fun _ => c) = INR n * c.
Proof.
  induction n as [|n IH]; [simpl; lra|].
  rewrite S_INR. cbn [sum_over]. rewrite IH. lra.
Qed.

Lemma sum_over_scal n c f :
  sum_over n (fun i => c * f i) = c * sum_over n f.
Proof. induction n as [|n IH]; simpl; [|rewrite IH]; lra. Qed.

Lemma sum_over_minus n f g :
  sum_over n (fun i => f i - g i) = sum_over n f - sum_over n g.
Proof. induction n as [|n IH]; simpl; [|rewrite IH]; lra. Qed.

Lemma sum_over_app a b f :
  sum_over (a + b) f = sum_over a f + sum_over b (fun k => f (a + k)%nat).
Proof.
  induction b as [|b IH]; simpl.
  - rewrite Nat.add_0_r. lra.
  - rewrite Nat.add_succ_r. simpl. rewrite IH. lra.
Qed.

(** A sum over the entries of a matrix, row after row, is the sum over
    the flat tensor. *)
Lemma sum_over_rows eta n f :
  sum_over eta (fun i => sum_over n (fun j => f (i * n + j)%nat))
  = sum_over (eta * n) f.
Proof.
  induction eta as [|eta IH]; [reflexivity|].
  cbn [sum_over]. rewrite IH.
  replace (S eta * n)%nat with (eta * n + n)%nat by lia.
  rewrite sum_over_app. reflexivity.
Qed.

Lemma score_app_l (a b : list R) i :
  (i < length a)%nat -> score (a ++ b) i = score a i.
Proof. intros Hi. unfold score. apply app_nth1. exact Hi. Qed.

Lemma score_app_r (a b : list R) k :
  score (a ++ b) (length a + k) = score b k.
Proof.
  unfold score. rewrite app_nth2 by lia. f_equal. lia.
Qed.

Lemma score_map (f : R -> R) (t : list R) (i : nat) :
  (i < length t)%nat -> score (map f t) i = f (score t i).
Proof.
  unfold score. revert i. induction t as [|x t IH]; intros [|i] Hi; simpl in *;
    try lia; [reflexivity|]. apply IH. lia.
Qed.

(** ** The sigmoid *)

Lemma sigmoid1_bounds x : 0 < tf.sigmoid1 x < 1.
Proof.
  unfold tf.sigmoid1. pose proof (exp_pos (- x)) as He.
  split.
  - apply Rdiv_lt_0_compat; lra.
  - apply (Rmult_lt_reg_r (1 + exp (- x))); [lra|].
    unfold Rdiv. rewrite Rmult_assoc, Rinv_l by lra. lra.
Qed.

Lemma neg_log_sigmoid_pos x : 0 < neg_log_sigmoid x.
Proof.
  unfold neg_log_sigmoid. destruct (sigmoid1_bounds x) as [H0 H1].
  assert (ln (tf.sigmoid1 x) < 0); [|lra].
  rewrite <- ln_1. apply ln_increasing; done.
Qed.

Lemma neg_log_sigmoid_softplus x : neg_log_sigmoid x = softplus (- x).
Proof.
  unfold neg_log_sigmoid, softplus, tf.sigmoid1. pose proof (exp_pos (- x)).
  unfold Rdiv. rewrite Rmult_1_l, ln_Rinv by lra. lra.
Qed.

Lemma softplus_pos x : 0 < softplus x.
Proof.
  unfold softplus. pose proof (exp_pos x).
  rewrite <- ln_1. apply ln_increasing; lra.
Qed.

End MoreSums.

(** ** [apply] of a constructed instance, class by class *)

Section Instances.
Local Open Scope R_scope.

Lemma pairwise_instance eta hyperparam_dict self scores_pos scores_neg :
  __init__ PairwiseLoss eta hyperparam_dict = Ok self ->
  apply self scores_pos scores_neg
  = if negb (eta =? 1)%nat && negb (length scores_pos =? length scores_neg)%nat
    then Raise ShapeMismatchError
    else t ← tf.broadcast Rplus
               (tf.scalar_l Rminus (dict_get hyperparam_dict "margin" 1) scores_pos)
               scores_neg;
         Ok (tf.reduce_sum (tf.maximum t 0)).
Proof.
  intros Hself.
  destruct (pairwise_apply_eq eta hyperparam_dict scores_pos scores_neg)
    as (self' & Hinit & Happly & Hcheck).
  rewrite Hself in Hinit. injection Hinit as <-.
  rewrite Hcheck, Happly. reflexivity.
Qed.

Lemma absolute_margin_instance eta hyperparam_dict self scores_pos scores_neg :
  __init__ AbsoluteMarginLoss eta hyperparam_dict = Ok self ->
  apply self scores_pos scores_neg
  = if negb (eta =? 1)%nat && negb (length scores_pos =? length scores_neg)%nat
    then Raise ShapeMismatchError
    else t ← tf.broadcast Rminus
               (tf.maximum
                  (tf.scalar_l Rplus (dict_get hyperparam_dict "margin" 1) scores_neg)
                  0)
               scores_pos;
         Ok (tf.reduce_sum t).
Proof.
  intros Hself.
  destruct (absolute_margin_apply_eq eta hyperparam_dict scores_pos scores_neg)
    as (self' & Hinit & Happly & Hcheck).
  rewrite Hself in Hinit. injection Hinit as <-.
  rewrite Hcheck, Happly. reflexivity.
Qed.

Lemma nll_instance eta hyperparam_dict self scores_pos scores_neg :
  __init__ NLLLoss eta hyperparam_dict = Ok self ->
  apply self scores_pos scores_neg
  = if negb (eta =? 1)%nat && negb (length scores_pos =? length scores_neg)%nat
    then Raise ShapeMismatchError
    else Ok (nll_formula scores_pos scores_neg).
Proof.
  intros Hself.
  destruct (nll_apply_eq eta hyperparam_dict scores_pos scores_neg)
    as (self' & Hinit & Happly & Hcheck).
  rewrite Hself in Hinit. injection Hinit as <-.
  rewrite Hcheck, Happly. reflexivity.
Qed.

Lemma nll_adversarial_instance eta hyperparam_dict self scores_pos scores_neg :
  __init__ NLLOriginalLoss eta hyperparam_dict = Ok self ->
  apply self scores_pos scores_neg
  = if decide (length scores_neg = (eta * length scores_pos)%nat)
    then Ok (nll_adversarial_formula (dict_get hyperparam_dict "alpha" 0.5) eta
               scores_pos scores_neg)
    else Raise IncompatibleShapes.
Proof.
  intros Hself.
  destruct (nll_adversarial_apply_eq eta hyperparam_dict scores_pos scores_neg)
    as (self' & Hinit & _ & _ & Happly & Hok & Hbad).
  rewrite Hself in Hinit. injection Hinit as <-.
  rewrite Happly. case_decide; [apply Hok|apply Hbad]; done.
Qed.

Lemma self_adversarial_instance eta hyperparam_dict self scores_pos scores_neg :
  __init__ SelfAdversarialLoss eta hyperparam_dict = Ok self ->
  apply self scores_pos scores_neg
  = if decide (length scores_neg = (eta * length scores_pos)%nat)
    then Ok (self_adversarial_formula (dict_get hyperparam_dict "margin" 3)
               (dict_get hyperparam_dict "alpha" 0.5) eta scores_pos scores_neg)
    else Raise IncompatibleShapes.
Proof.
  intros Hself.
  destruct (self_adversarial_apply_eq eta hyperparam_dict scores_pos scores_neg)
    as (self' & Hinit & _ & _ & Happly & Hok & Hbad).
  rewrite Hself in Hinit. injection Hinit as <-.
  rewrite Happly. case_decide; [apply Hok|apply Hbad]; done.
Qed.

Lemma pairwise_instance_same_length eta hyperparam_dict self scores_pos scores_neg :
  __init__ PairwiseLoss eta hyperparam_dict = Ok self ->
  length scores_pos = length scores_neg ->
  apply self scores_pos scores_neg
  = Ok (pairwise_formula (dict_get hyperparam_dict "margin" 1) scores_pos scores_neg).
Proof.
  intros Hself Hlen. rewrite (pairwise_instance _ _ _ _ _ Hself).
  apply Nat.eqb_eq in Hlen as Heqb. rewrite Heqb, andb_false_r.
  rewrite broadcast_same_length by (unfold tf.scalar_l; rewrite length_map; done).
  simpl. rewrite pairwise_tensor by done. reflexivity.
Qed.

Lemma absolute_margin_instance_same_length eta hyperparam_dict self
    scores_pos scores_neg :
  __init__ AbsoluteMarginLoss eta hyperparam_dict = Ok self ->
  length scores_pos = length scores_neg ->
  apply self scores_pos scores_neg
  = Ok (absolute_margin_formula (dict_get hyperparam_dict "margin" 1)
          scores_pos scores_neg).
Proof.
  intros Hself Hlen. rewrite (absolute_margin_instance _ _ _ _ _ Hself).
  apply Nat.eqb_eq in Hlen as Heqb. rewrite Heqb, andb_false_r.
  rewrite broadcast_same_length
    by (unfold tf.maximum, tf.scalar_l; rewrite !length_map; done).
  simpl. rewrite absolute_margin_tensor by done. reflexivity.
Qed.

(** X8.  On two empty score tensors every class returns the loss 0,
    whatever [eta] and the configuration. *)
Theorem apply_empty_scores (c : loss_class) (eta : nat)
    (hyperparam_dict : gmap string R) :
  exists self,
    __init__ c eta hyperparam_dict = Ok self /\ apply self [] [] = Ok 0.
Proof.
  destruct (__init___eq c eta hyperparam_dict) as (params & _ & Hinit).
  eexists. split; [exact Hinit|]. destruct c.
  - rewrite (pairwise_instance_same_length _ _ _ _ _ Hinit) by reflexivity.
    reflexivity.
  - rewrite (nll_instance _ _ _ _ _ Hinit). simpl. rewrite andb_false_r.
    reflexivity.
  - rewrite (nll_adversarial_instance _ _ _ _ _ Hinit).
    rewrite decide_True by (simpl; lia). f_equal.
    unfold nll_adversarial_formula. simpl. rewrite sum_over_const0. lra.
  - rewrite (absolute_margin_instance_same_length _ _ _ _ _ Hinit) by reflexivity.
    reflexivity.
  - rewrite (self_adversarial_instance _ _ _ _ _ Hinit).
    rewrite decide_True by (simpl; lia). f_equal.
    unfold self_adversarial_formula. simpl. rewrite sum_over_const0. lra.
Qed.

(** X9.  A pairwise loss is never negative, on any input on which [apply]
    returns; on score tensors of one length it is 0 exactly when every
    positive beats its negative by at least the margin. *)
Theorem pairwise_loss_zero_iff (eta : nat) (hyperparam_dict : gmap string R)
    (scores_pos scores_neg : list R) :
  exists self,
    __init__ PairwiseLoss eta hyperparam_dict = Ok self
    /\ (forall loss, apply self scores_pos scores_neg = Ok loss -> 0 <= loss)
    /\ (length scores_pos = length scores_neg ->
        apply self scores_pos scores_neg = Ok 0
        <-> forall i, (i < length scores_pos)%nat ->
              dict_get hyperparam_dict "margin" 1
              <= score scores_pos i - score scores_neg i).
Proof.
  eexists. split; [reflexivity|]. split.
  - intros loss. rewrite (pairwise_instance eta hyperparam_dict) by reflexivity.
    destruct (_ && _); [discriminate|].
    destruct (tf.broadcast _ _ _) as [t|e]; simpl; [|discriminate].
    intros [= <-]. unfold tf.maximum. rewrite reduce_sum_map.
    apply sum_over_nonneg. intros i _. apply Rmax_r.
  - intros Hlen.
    rewrite (pairwise_instance_same_length eta hyperparam_dict) by done.
    unfold pairwise_formula. split.
    + intros [= Hzero] i Hi.
      apply sum_over_zero_iff with (i := i) in Hzero;
        [|intros; apply Rmax_l|exact Hi].
      cbv beta in Hzero.
      pose proof (Rmax_r 0 (dict_get hyperparam_dict "margin" 1
                            - score scores_pos i + score scores_neg i)).
      lra.
    + intros Hall. f_equal. apply sum_over_zero_iff; [intros; apply Rmax_l|].
      intros i Hi. apply Rmax_left. specialize (Hall i Hi). lra.
Qed.

Lemma pairwise_loss_zero_iff_witness :
  exists self,
    __init__ PairwiseLoss 3 ∅ = Ok self
    /\ apply self [5; 7] [1; 6] = Ok 0.
Proof.
  destruct (pairwise_loss_zero_iff 3 ∅ [5; 7] [1; 6])
    as (self & Hinit & _ & Hzero).
  exists self. split; [exact Hinit|]. apply Hzero; [reflexivity|].
  intros i Hi. unfold dict_get, score. rewrite lookup_empty. simpl.
  destruct i as [|[|i]]; simpl in *; [lra|lra|lia].
Defined.

End Instances.

(** ** The margin losses and the negative log-likelihood *)

Section Values.
Local Open Scope R_scope.

Lemma broadcast_map (f : R -> R -> R) (g g' h h' : R -> R) (a b : list R) :
  (forall x y, f (g x) (h y) = f (g' x) (h' y)) ->
  tf.broadcast f (map g a) (map h b) = tf.broadcast f (map g' a) (map h' b).
Proof.
  intros Hf. unfold tf.broadcast. rewrite !length_map.
  assert (Hzip : forall a b : list R,
    zip_with f (map g a) (map h b) = zip_with f (map g' a) (map h' b)).
  { clear a b. induction a as [|x a IH]; intros [|y b]; simpl; try reflexivity.
    rewrite Hf, IH. reflexivity. }
  case_decide; [rewrite Hzip; reflexivity|].
  destruct a as [|x [|x' a]], b as [|y [|y' b]]; simpl; try reflexivity;
    rewrite ?Hf; do 3 (try f_equal);
    rewrite !map_map; apply map_ext; intros; apply Hf.
Qed.

Lemma broadcast_single_l (f : R -> R -> R) x (b : list R) :
  tf.broadcast f [x] b = Ok (map (f x) b).
Proof.
  unfold tf.broadcast. case_decide as Hlen; [|reflexivity].
  destruct b as [|y [|y' b]]; try discriminate Hlen. reflexivity.
Qed.

Lemma broadcast_single_r (f : R -> R -> R) (a : list R) y :
  tf.broadcast f a [y] = Ok (map (fun x => f x y) a).
Proof.
  unfold tf.broadcast. case_decide as Hlen.
  - destruct a as [|x [|x' a]]; try discriminate Hlen. reflexivity.
  - destruct a as [|x [|x' a]]; reflexivity.
Qed.

(** X10.  A pairwise loss depends on the scores only through their
    differences: adding one constant to every positive and every negative
    score changes neither the loss nor the failure of [apply]. *)
Theorem pairwise_translation_invariant (eta : nat) (hyperparam_dict : gmap string R)
    (shift : R) (scores_pos scores_neg : list R) :
  exists self,
    __init__ PairwiseLoss eta hyperparam_dict = Ok self
    /\ apply self (map (Rplus shift) scores_pos) (map (Rplus shift) scores_neg)
       = apply self scores_pos scores_neg.
Proof.
  eexists. split; [reflexivity|].
  rewrite !(pairwise_instance eta hyperparam_dict) by reflexivity.
  rewrite !length_map. destruct (_ && _); [reflexivity|].
  unfold tf.scalar_l. rewrite map_map.
  rewrite <- (map_id scores_neg) at 2.
  rewrite (broadcast_map Rplus _ (Rminus (dict_get hyperparam_dict "margin" 1))
             _ (fun y => y)); [reflexivity|].
  intros x y. lra.
Qed.

(** X11.  On score tensors of one length a pairwise loss grows with the
    margin. *)
Theorem pairwise_monotone_in_margin (eta : nat)
    (hyperparam_dict hyperparam_dict' : gmap string R)
    (scores_pos scores_neg : list R) :
  length scores_pos = length scores_neg ->
  dict_get hyperparam_dict "margin" 1 <= dict_get hyperparam_dict' "margin" 1 ->
  exists self self' loss loss',
    __init__ PairwiseLoss eta hyperparam_dict = Ok self
    /\ __init__ PairwiseLoss eta hyperparam_dict' = Ok self'
    /\ apply self scores_pos scores_neg = Ok loss
    /\ apply self' scores_pos scores_neg = Ok loss'
    /\ loss <= loss'.
Proof.
  intros Hlen Hmargin. do 4 eexists.
  split; [reflexivity|]. split; [reflexivity|].
  split; [apply (pairwise_instance_same_length eta hyperparam_dict); done|].
  split; [apply (pairwise_instance_same_length eta hyperparam_dict'); done|].
  unfold pairwise_formula. apply sum_over_le. intros i _.
  apply Rle_max_compat_l. lra.
Qed.

Lemma pairwise_monotone_in_margin_witness :
  length [1; 2] = length [3; 0]
  /\ dict_get {[ "margin" := 1 ]} "margin" 1 <= dict_get {[ "margin" := 4 ]} "margin" 1
  /\ exists self self' loss loss',
       __init__ PairwiseLoss 2 {[ "margin" := 1 ]} = Ok self
       /\ __init__ PairwiseLoss 2 {[ "margin" := 4 ]} = Ok self'
       /\ apply self [1; 2] [3; 0] = Ok loss
       /\ apply self' [1; 2] [3; 0] = Ok loss'
       /\ loss <= loss'.
Proof.
  assert (Hmargin : dict_get {[ "margin" := 1 ]} "margin" 1
                    <= dict_get {[ "margin" := 4 ]} "margin" 1).
  { unfold dict_get. rewrite !lookup_singleton_eq. simpl. lra. }
  split; [reflexivity|]. split; [exact Hmargin|].
  apply (pairwise_monotone_in_margin 2 {[ "margin" := 1 ]} {[ "margin" := 4 ]}
           [1; 2] [3; 0]); [reflexivity|exact Hmargin].
Defined.

(** X12.  With [eta = 1] a margin loss accepts one score against many and
    pairs that score with each of the others: one positive is compared
    with every negative, and one negative with every positive. *)
Theorem margin_losses_broadcast (hyperparam_dict : gmap string R)
    (p n : R) (scores_pos scores_neg : list R) :
  let margin := dict_get hyperparam_dict "margin" 1 in
  exists pairwise absolute,
    __init__ PairwiseLoss 1 hyperparam_dict = Ok pairwise
    /\ __init__ AbsoluteMarginLoss 1 hyperparam_dict = Ok absolute
    /\ apply pairwise [p] scores_neg
       = Ok (sum_over (length scores_neg)
               (fun j => Rmax 0 (margin - p + score scores_neg j)))
    /\ apply pairwise scores_pos [n]
       = Ok (sum_over (length scores_pos)
               (fun i => Rmax 0 (margin - score scores_pos i + n)))
    /\ apply absolute [p] scores_neg
       = Ok (sum_over (length scores_neg)
               (fun j => Rmax 0 (margin + score scores_neg j) - p))
    /\ apply absolute scores_pos [n]
       = Ok (sum_over (length scores_pos)
               (fun i => Rmax 0 (margin + n) - score scores_pos i)).
Proof.
  intros margin. do 2 eexists.
  split; [reflexivity|]. split; [reflexivity|].
  rewrite !(pairwise_instance 1 hyperparam_dict) by reflexivity.
  rewrite !(absolute_margin_instance 1 hyperparam_dict) by reflexivity.
  cbn [Nat.eqb negb andb]. unfold tf.scalar_l, tf.maximum. cbn [map].
  rewrite !broadcast_single_l, !broadcast_single_r. cbn [mbind result_bind].
  rewrite !map_map, !reduce_sum_map. fold margin.
  repeat split; f_equal; apply sum_over_ext; intros i _;
    rewrite ?(Rmax_comm _ 0); reflexivity.
Qed.

Lemma nll_formula_split scores_pos scores_neg :
  nll_formula scores_pos scores_neg
  = sum_over (length scores_pos) (fun i => softplus (- score scores_pos i))
    + sum_over (length scores_neg) (fun j => softplus (score scores_neg j)).
Proof.
  unfold nll_formula. cbv zeta. rewrite length_app, length_map, sum_over_app.
  f_equal; apply sum_over_ext; intros i Hi; unfold softplus.
  - rewrite score_app_l by (rewrite length_map; done).
    rewrite score_map by done. reflexivity.
  - rewrite <- (length_map Ropp scores_pos), score_app_r. reflexivity.
Qed.

Lemma sum_over_positive n f :
  (0 < n)%nat -> (forall i, (i < n)%nat -> 0 < f i) -> 0 < sum_over n f.
Proof.
  intros Hn Hf. destruct n as [|n]; [lia|]. simpl.
  assert (0 <= sum_over n f)
    by (apply sum_over_nonneg; intros; apply Rlt_le, Hf; lia).
  assert (0 < f n) by (apply Hf; lia). lra.
Qed.

(** X13.  The negative log-likelihood is the softplus of the negated
    positive scores plus the softplus of the negative scores; it is never
    negative, and it is 0 only on two empty tensors. *)
Theorem nll_loss_positive (eta : nat) (hyperparam_dict : gmap string R)
    (scores_pos scores_neg : list R) :
  exists self,
    __init__ NLLLoss eta hyperparam_dict = Ok self
    /\ forall loss,
         apply self scores_pos scores_neg = Ok loss ->
         loss = sum_over (length scores_pos)
                  (fun i => softplus (- score scores_pos i))
                + sum_over (length scores_neg)
                    (fun j => softplus (score scores_neg j))
         /\ 0 <= loss
         /\ (loss = 0 <-> scores_pos = [] /\ scores_neg = []).
Proof.
  eexists. split; [reflexivity|]. intros loss.
  rewrite (nll_instance eta hyperparam_dict) by reflexivity.
  destruct (_ && _); [discriminate|]. intros [= <-].
  rewrite nll_formula_split. split; [reflexivity|].
  assert (Hp : 0 <= sum_over (length scores_pos)
                      (fun i => softplus (- score scores_pos i)))
    by (apply sum_over_nonneg; intros; apply Rlt_le, softplus_pos).
  assert (Hn : 0 <= sum_over (length scores_neg)
                      (fun j => softplus (score scores_neg j)))
    by (apply sum_over_nonneg; intros; apply Rlt_le, softplus_pos).
  split; [lra|]. split.
  - intros Hzero. split.
    + destruct scores_pos as [|x t]; [reflexivity|]. exfalso.
      pose proof (sum_over_positive (length (x :: t))
                    (fun i => softplus (- score (x :: t) i))) as Hpos.
      specialize (Hpos ltac:(simpl; lia) ltac:(intros; apply softplus_pos)). lra.
    + destruct scores_neg as [|x t]; [reflexivity|]. exfalso.
      pose proof (sum_over_positive (length (x :: t))
                    (fun j => softplus (score (x :: t) j))) as Hpos.
      specialize (Hpos ltac:(simpl; lia) ltac:(intros; apply softplus_pos)). lra.
  - intros [-> ->]. simpl. lra.
Qed.

Lemma nll_loss_positive_witness :
  exists self,
    __init__ NLLLoss 1 ∅ = Ok self
    /\ 0 <= nll_formula [1] [2; 3].
Proof.
  destruct (nll_loss_positive 1 ∅ [1] [2; 3]) as (self & Hinit & Hloss).
  exists self. split; [exact Hinit|].
  apply (Hloss (nll_formula [1] [2; 3])).
  rewrite (nll_instance 1 ∅ self) by exact Hinit. reflexivity.
Defined.

End Values.

(** ** Batches *)

Section Batches.
Local Open Scope R_scope.

Lemma sum_over_app_scores (f : R -> R -> R) (a1 a2 b1 b2 : list R) :
  length a1 = length b1 ->
  sum_over (length (a1 ++ a2))
    (fun i => f (score (a1 ++ a2) i) (score (b1 ++ b2) i))
  = sum_over (length a1) (fun i => f (score a1 i) (score b1 i))
    + sum_over (length a2) (fun i => f (score a2 i) (score b2 i)).
Proof.
  intros Hlen. rewrite length_app, sum_over_app.
  f_equal; apply sum_over_ext; intros i Hi.
  - rewrite !score_app_l by lia. reflexivity.
  - rewrite score_app_r. rewrite Hlen, score_app_r. reflexivity.
Qed.

Lemma sum_over_app_score (f : R -> R) (a1 a2 : list R) :
  sum_over (length (a1 ++ a2)) (fun i => f (score (a1 ++ a2) i))
  = sum_over (length a1) (fun i => f (score a1 i))
    + sum_over (length a2) (fun i => f (score a2 i)).
Proof.
  apply (sum_over_app_scores (fun x _ => f x) a1 a2 a1 a2). reflexivity.
Qed.

(** X14.  For the three classes that align the scores by position, the
    loss of two batches put end to end is the sum of the losses of the
    batches, when each batch has as many negatives as positives. *)
Theorem batch_losses_add (c : loss_class) (eta : nat)
    (hyperparam_dict : gmap string R)
    (scores_pos1 scores_neg1 scores_pos2 scores_neg2 : list R) :
  require_same_size_pos_neg c = Ok true ->
  length scores_pos1 = length scores_neg1 ->
  length scores_pos2 = length scores_neg2 ->
  exists self loss1 loss2,
    __init__ c eta hyperparam_dict = Ok self
    /\ apply self scores_pos1 scores_neg1 = Ok loss1
    /\ apply self scores_pos2 scores_neg2 = Ok loss2
    /\ apply self (scores_pos1 ++ scores_pos2) (scores_neg1 ++ scores_neg2)
       = Ok (loss1 + loss2).
Proof.
  rewrite require_same_size_pos_neg_eq. intros [= Hc] Hlen1 Hlen2.
  assert (Hlen : length (scores_pos1 ++ scores_pos2)
                 = length (scores_neg1 ++ scores_neg2))
    by (rewrite !length_app; lia).
  destruct c; try discriminate Hc; do 3 eexists; (split; [reflexivity|]).
  - rewrite !(pairwise_instance_same_length eta hyperparam_dict) by done.
    split; [reflexivity|]. split; [reflexivity|]. f_equal.
    unfold pairwise_formula.
    apply (sum_over_app_scores
             (fun p n => Rmax 0 (dict_get hyperparam_dict "margin" 1 - p + n))).
    done.
  - rewrite !(nll_instance eta hyperparam_dict) by reflexivity.
    apply Nat.eqb_eq in Hlen1, Hlen2, Hlen.
    rewrite Hlen1, Hlen2, Hlen, !andb_false_r.
    split; [reflexivity|]. split; [reflexivity|]. f_equal.
    rewrite !nll_formula_split.
    rewrite (sum_over_app_score (fun x => softplus (- x))).
    rewrite (sum_over_app_score softplus). lra.
  - rewrite !(absolute_margin_instance_same_length eta hyperparam_dict) by done.
    split; [reflexivity|]. split; [reflexivity|]. f_equal.
    unfold absolute_margin_formula.
    apply (sum_over_app_scores
             (fun p n => Rmax 0 (dict_get hyperparam_dict "margin" 1 + n) - p)).
    done.
Qed.

Lemma batch_losses_add_witness :
  require_same_size_pos_neg NLLLoss = Ok true
  /\ length [1] = length [2]
  /\ length [3; 4] = length [5; 6]
  /\ exists self loss1 loss2,
       __init__ NLLLoss 2 ∅ = Ok self
       /\ apply self [1] [2] = Ok loss1
       /\ apply self [3; 4] [5; 6] = Ok loss2
       /\ apply self ([1] ++ [3; 4]) ([2] ++ [5; 6]) = Ok (loss1 + loss2).
Proof.
  split; [reflexivity|]. split; [reflexivity|]. split; [reflexivity|].
  apply (batch_losses_add NLLLoss 2 ∅ [1] [2] [3; 4] [5; 6]); reflexivity.
Defined.

(** X15.  On score tensors of one length an absolute-margin loss is the
    sum of [max(0, margin + score)] over the negatives minus the sum of the
    positive scores: the positives enter only through their sum, and the
    loss is at least minus that sum. *)
Theorem absolute_margin_separable (eta : nat) (hyperparam_dict : gmap string R)
    (scores_pos scores_neg : list R) :
  length scores_pos = length scores_neg ->
  exists self loss,
    __init__ AbsoluteMarginLoss eta hyperparam_dict = Ok self
    /\ apply self scores_pos scores_neg = Ok loss
    /\ loss = sum_over (length scores_neg)
                (fun i => Rmax 0 (dict_get hyperparam_dict "margin" 1
                                  + score scores_neg i))
              - sum_over (length scores_pos) (score scores_pos)
    /\ - sum_over (length scores_pos) (score scores_pos) <= loss.
Proof.
  intros Hlen. do 2 eexists. split; [reflexivity|].
  split; [apply (absolute_margin_instance_same_length eta hyperparam_dict); done|].
  unfold absolute_margin_formula. rewrite sum_over_minus, <- Hlen.
  split; [reflexivity|].
  assert (0 <= sum_over (length scores_pos)
                 (fun i => Rmax 0 (dict_get hyperparam_dict "margin" 1
                                   + score scores_neg i)))
    by (apply sum_over_nonneg; intros; apply Rmax_l).
  lra.
Qed.

Lemma absolute_margin_separable_witness :
  length [1; 2] = length [3; 4]
  /\ exists self loss,
       __init__ AbsoluteMarginLoss 2 ∅ = Ok self
       /\ apply self [1; 2] [3; 4] = Ok loss
       /\ - sum_over (length [1; 2]) (score [1; 2]) <= loss.
Proof.
  split; [reflexivity|].
  destruct (absolute_margin_separable 2 ∅ [1; 2] [3; 4] eq_refl)
    as (self & loss & Hinit & Happly & _ & Hbound).
  exists self, loss. split; [exact Hinit|]. split; [exact Happly|exact Hbound].
Defined.

End Batches.

(** ** The adversarial weights *)

Section Weights.
Local Open Scope R_scope.

Lemma sum_over_opp n f : sum_over n (fun i => - f i) = - sum_over n f.
Proof. induction n as [|n IH]; simpl; [|rewrite IH]; lra. Qed.

Lemma sum_over_term_le n f i :
  (forall k, (k < n)%nat -> 0 <= f k) -> (i < n)%nat -> f i <= sum_over n f.
Proof.
  induction n as [|n IH]; intros Hf Hi; [lia|]. simpl.
  assert (0 <= sum_over n f) by (apply sum_over_nonneg; intros; apply Hf; lia).
  assert (0 <= f n) by (apply Hf; lia).
  destruct (decide (i = n)) as [->|Hne]; [lra|].
  assert (f i <= sum_over n f) by (apply IH; [intros; apply Hf|]; lia). lra.
Qed.

Lemma Forall_tabulate {A : Type} (P : A -> Prop) n (f : nat -> A) :
  (forall i, (i < n)%nat -> P (f i)) -> Forall P (tabulate n f).
Proof.
  revert f. induction n as [|n IH]; intros f Hf; simpl; constructor.
  - apply Hf. lia.
  - apply IH. intros i Hi. apply Hf. lia.
Qed.

Lemma p_neg_denominator_pos alpha eta n scores_neg j :
  (0 < eta)%nat ->
  0 < sum_over eta (fun k => exp (alpha * neg_matrix n scores_neg k j)).
Proof. intros Heta. apply sum_over_positive; [done|]. intros. apply exp_pos. Qed.

Lemma p_neg_bounds alpha eta n scores_neg i j :
  (i < eta)%nat -> 0 < p_neg alpha eta n scores_neg i j <= 1.
Proof.
  intros Hi. unfold p_neg.
  pose proof (p_neg_denominator_pos alpha eta n scores_neg j ltac:(lia)) as Hden.
  split.
  - apply Rdiv_lt_0_compat; [apply exp_pos|exact Hden].
  - apply (Rmult_le_reg_r _ _ _ Hden).
    unfold Rdiv. rewrite Rmult_assoc, Rinv_l, Rmult_1_r, Rmult_1_l by lra.
    apply (sum_over_term_le eta
             (fun k => exp (alpha * neg_matrix n scores_neg k j)));
      [intros; apply Rlt_le, exp_pos|exact Hi].
Qed.

Lemma p_neg_column_sum alpha eta n scores_neg j :
  (0 < eta)%nat -> sum_over eta (fun i => p_neg alpha eta n scores_neg i j) = 1.
Proof.
  intros Heta.
  pose proof (p_neg_denominator_pos alpha eta n scores_neg j Heta) as Hden.
  unfold p_neg, Rdiv.
  rewrite (sum_over_ext _ _
             (fun i => / sum_over eta
                           (fun k => exp (alpha * neg_matrix n scores_neg k j))
                       * exp (alpha * neg_matrix n scores_neg i j)))
    by (intros; apply Rmult_comm).
  rewrite sum_over_scal. apply Rinv_l. lra.
Qed.

(** X16.  The weights that the two adversarial losses compute from
    [eta >= 1] negatives per positive lie in (0, 1], and the weights of the
    negatives of one positive sum to 1. *)
Theorem adversarial_weights_distribution (alpha : R) (eta : nat)
    (scores_pos scores_neg : list R) :
  (0 < eta)%nat ->
  length scores_neg = (eta * length scores_pos)%nat ->
  exists scores_neg_reshaped,
    tf.reshape scores_neg eta (length scores_pos) = Ok scores_neg_reshaped
    /\ let p_neg :=
         tf.softmax_axis0 (length scores_pos)
           (map (tf.scalar_l Rmult alpha) scores_neg_reshaped) in
       Forall (Forall (fun p => 0 < p <= 1)) p_neg
       /\ tf.reduce_sum_axis0 (length scores_pos) p_neg
          = replicate (length scores_pos) 1.
Proof.
  intros Heta Hlen. eexists. split; [apply reshape_ok; done|]. cbv zeta.
  rewrite p_neg_tensor. split.
  - unfold tabulate2. apply Forall_tabulate. intros i Hi.
    apply Forall_tabulate. intros j _. apply p_neg_bounds. exact Hi.
  - rewrite reduce_sum_axis0_tabulate2, replicate_tabulate.
    apply tabulate_ext. intros j. apply p_neg_column_sum. exact Heta.
Qed.

Lemma adversarial_weights_distribution_witness :
  (0 < 2)%nat
  /\ length [2; 3; 4; 5] = (2 * length [1; 6])%nat
  /\ exists scores_neg_reshaped,
       tf.reshape [2; 3; 4; 5] 2 (length [1; 6]) = Ok scores_neg_reshaped
       /\ tf.reduce_sum_axis0 (length [1; 6])
            (tf.softmax_axis0 (length [1; 6])
               (map (tf.scalar_l Rmult 0.5) scores_neg_reshaped))
          = replicate (length [1; 6]) 1.
Proof.
  split; [lia|]. split; [reflexivity|].
  destruct (adversarial_weights_distribution 0.5 2 [1; 6] [2; 3; 4; 5])
    as (M & HM & _ & Hsum); [lia|reflexivity|].
  exists M. split; [exact HM|exact Hsum].
Defined.

Lemma weighted_sum_bounds alpha eta n scores_neg (g : R -> R) :
  (forall x, 0 <= g x) ->
  length scores_neg = (eta * n)%nat ->
  0 <= sum_over eta (fun i => sum_over n (fun j =>
         p_neg alpha eta n scores_neg i j * g (neg_matrix n scores_neg i j)))
    <= sum_over (length scores_neg) (fun k => g (score scores_neg k)).
Proof.
  intros Hg Hlen. split.
  - apply sum_over_nonneg. intros i Hi. apply sum_over_nonneg. intros j _.
    apply Rmult_le_pos; [apply Rlt_le, p_neg_bounds; exact Hi|apply Hg].
  - rewrite Hlen, <- (sum_over_rows eta n (fun k => g (score scores_neg k))).
    apply sum_over_le. intros i Hi. apply sum_over_le. intros j _.
    fold (neg_matrix n scores_neg i j).
    destruct (p_neg_bounds alpha eta n scores_neg i j Hi) as [_ Hle].
    pose proof (Hg (neg_matrix n scores_neg i j)). nra.
Qed.

(** X17.  Both adversarial losses lie between 0 and their formula without
    the weighting, taken over all the negatives. *)
Theorem adversarial_loss_bounds (eta : nat) (hyperparam_dict : gmap string R)
    (scores_pos scores_neg : list R) :
  length scores_neg = (eta * length scores_pos)%nat ->
  exists nll_adversarial self_adversarial loss loss',
    __init__ NLLOriginalLoss eta hyperparam_dict = Ok nll_adversarial
    /\ __init__ SelfAdversarialLoss eta hyperparam_dict = Ok self_adversarial
    /\ apply nll_adversarial scores_pos scores_neg = Ok loss
    /\ apply self_adversarial scores_pos scores_neg = Ok loss'
    /\ 0 <= loss <= nll_unweighted_formula scores_pos scores_neg
    /\ 0 <= loss'
       <= self_unweighted_formula (dict_get hyperparam_dict "margin" 3)
            scores_pos scores_neg.
Proof.
  intros Hlen. do 4 eexists.
  split; [reflexivity|]. split; [reflexivity|].
  rewrite (nll_adversarial_instance eta hyperparam_dict) by reflexivity.
  rewrite (self_adversarial_instance eta hyperparam_dict) by reflexivity.
  rewrite !decide_True by done.
  split; [reflexivity|]. split; [reflexivity|].
  set (alpha := dict_get hyperparam_dict "alpha" 0.5).
  set (margin := dict_get hyperparam_dict "margin" 3).
  split.
  - unfold nll_adversarial_formula, nll_unweighted_formula. cbv zeta.
    pose proof (weighted_sum_bounds alpha eta (length scores_pos) scores_neg
                  (fun x => neg_log_sigmoid (- x))
                  (fun x => Rlt_le _ _ (neg_log_sigmoid_pos (- x))) Hlen) as Hw.
    unfold neg_log_sigmoid in Hw.
    assert (0 <= sum_over (length scores_pos)
                   (fun j => - ln (tf.sigmoid1 (score scores_pos j))))
      by (apply sum_over_nonneg; intros;
          apply Rlt_le, (neg_log_sigmoid_pos (score scores_pos i))).
    lra.
  - unfold self_adversarial_formula, self_unweighted_formula. cbv zeta.
    pose proof (weighted_sum_bounds alpha eta (length scores_pos) scores_neg
                  (fun x => neg_log_sigmoid (- x - margin))
                  (fun x => Rlt_le _ _ (neg_log_sigmoid_pos (- x - margin)))
                  Hlen) as Hw.
    unfold neg_log_sigmoid in Hw.
    rewrite (sum_over_ext _
               (fun i => sum_over (length scores_pos) (fun j =>
                  p_neg alpha eta (length scores_pos) scores_neg i j
                  * - ln (tf.sigmoid1
                            (- neg_matrix (length scores_pos) scores_neg i j
                             - margin))))
               (fun i => - sum_over (length scores_pos) (fun j =>
                  p_neg alpha eta (length scores_pos) scores_neg i j
                  * ln (tf.sigmoid1
                          (- neg_matrix (length scores_pos) scores_neg i j
                           - margin))))) in Hw
      by (intros; rewrite <- sum_over_opp; apply sum_over_ext; intros; lra).
    rewrite sum_over_opp in Hw.
    rewrite sum_over_opp in Hw.
    assert (0 <= sum_over (length scores_pos)
                   (fun j => - ln (tf.sigmoid1 (margin - - score scores_pos j))))
      by (apply sum_over_nonneg; intros;
          apply Rlt_le, (neg_log_sigmoid_pos (margin - - score scores_pos i))).
    lra.
Qed.

Lemma adversarial_loss_bounds_witness :
  length [2; 3; 4; 5] = (2 * length [1; 6])%nat
  /\ exists nll_adversarial loss,
       __init__ NLLOriginalLoss 2 ∅ = Ok nll_adversarial
       /\ apply nll_adversarial [1; 6] [2; 3; 4; 5] = Ok loss
       /\ 0 <= loss <= nll_unweighted_formula [1; 6] [2; 3; 4; 5].
Proof.
  split; [reflexivity|].
  destruct (adversarial_loss_bounds 2 ∅ [1; 6] [2; 3; 4; 5] eq_refl)
    as (adv & _ & loss & _ & Hinit & _ & Happly & _ & Hbounds & _).
  exists adv, loss. split; [exact Hinit|]. split; [exact Happly|exact Hbounds].
Defined.

End Weights.

(** ** Special settings of the adversarial losses *)

Section Settings.
Local Open Scope R_scope.

(** X18.  With one negative per positive the loss registered as
    nll-adversarial is the loss registered as nll: on score tensors of one
    length, [NLLOriginalLoss] built with [eta = 1] and [NLLLoss] return the
    same value, whatever their configurations. *)
Theorem nll_adversarial_eta1_is_nll (eta : nat)
    (hyperparam_dict hyperparam_dict' : gmap string R)
    (scores_pos scores_neg : list R) :
  length scores_pos = length scores_neg ->
  exists nll nll_adversarial loss,
    __init__ NLLLoss eta hyperparam_dict = Ok nll
    /\ __init__ NLLOriginalLoss 1 hyperparam_dict' = Ok nll_adversarial
    /\ apply nll scores_pos scores_neg = Ok loss
    /\ apply nll_adversarial scores_pos scores_neg = Ok loss.
Proof.
  intros Hlen. do 3 eexists. split; [reflexivity|]. split; [reflexivity|].
  rewrite (nll_instance eta hyperparam_dict) by reflexivity.
  rewrite (nll_adversarial_instance 1 hyperparam_dict') by reflexivity.
  apply Nat.eqb_eq in Hlen as Heqb. rewrite Heqb, andb_false_r.
  rewrite decide_True by lia. split; [reflexivity|]. f_equal.
  rewrite nll_adversarial_formula_eta1, nll_formula_split by done.
  unfold nll_unweighted_formula.
  f_equal; apply sum_over_ext; intros i _.
  - apply neg_log_sigmoid_softplus.
  - rewrite <- (Ropp_involutive (score scores_neg i)) at 2.
    apply neg_log_sigmoid_softplus.
Qed.

Lemma nll_adversarial_eta1_is_nll_witness :
  length [1; 6] = length [2; 3]
  /\ exists nll nll_adversarial loss,
       __init__ NLLLoss 1 ∅ = Ok nll
       /\ __init__ NLLOriginalLoss 1 {[ "alpha" := 2 ]} = Ok nll_adversarial
       /\ apply nll [1; 6] [2; 3] = Ok loss
       /\ apply nll_adversarial [1; 6] [2; 3] = Ok loss.
Proof.
  split; [reflexivity|].
  apply (nll_adversarial_eta1_is_nll 1 ∅ {[ "alpha" := 2 ]} [1; 6] [2; 3]).
  reflexivity.
Defined.

Lemma p_neg_alpha0 eta n scores_neg i j :
  p_neg 0 eta n scores_neg i j = / INR eta.
Proof.
  unfold p_neg.
  rewrite (sum_over_ext _ _ (fun _ => 1))
    by (intros; rewrite Rmult_0_l; apply exp_0).
  rewrite sum_over_const, Rmult_0_l, exp_0. unfold Rdiv. rewrite Rmult_1_r.
  lra.
Qed.

(** X19.  With the temperature [alpha] set to 0 the weights are uniform:
    each adversarial loss is its positive part plus the mean, over the
    [eta] negatives of each positive, of its negative part. *)
Theorem adversarial_alpha0_uniform (eta : nat) (hyperparam_dict : gmap string R)
    (scores_pos scores_neg : list R) :
  hyperparam_dict !! "alpha" = Some 0 ->
  length scores_neg = (eta * length scores_pos)%nat ->
  let margin := dict_get hyperparam_dict "margin" 3 in
  exists nll_adversarial self_adversarial,
    __init__ NLLOriginalLoss eta hyperparam_dict = Ok nll_adversarial
    /\ __init__ SelfAdversarialLoss eta hyperparam_dict = Ok self_adversarial
    /\ apply nll_adversarial scores_pos scores_neg
       = Ok (sum_over (length scores_pos)
               (fun j => neg_log_sigmoid (score scores_pos j))
             + / INR eta
               * sum_over (length scores_neg)
                   (fun k => neg_log_sigmoid (- score scores_neg k)))
    /\ apply self_adversarial scores_pos scores_neg
       = Ok (sum_over (length scores_pos)
               (fun j => neg_log_sigmoid (margin - - score scores_pos j))
             + / INR eta
               * sum_over (length scores_neg)
                   (fun k => neg_log_sigmoid (- score scores_neg k - margin))).
Proof.
  intros Halpha Hlen margin. do 2 eexists.
  split; [reflexivity|]. split; [reflexivity|].
  rewrite (nll_adversarial_instance eta hyperparam_dict) by reflexivity.
  rewrite (self_adversarial_instance eta hyperparam_dict) by reflexivity.
  rewrite !decide_True by done. fold margin.
  assert (Ha : dict_get hyperparam_dict "alpha" 0.5 = 0)
    by (unfold dict_get; rewrite Halpha; reflexivity).
  rewrite !Ha.
  unfold nll_adversarial_formula, self_adversarial_formula, neg_log_sigmoid.
  cbv zeta. rewrite Hlen.
  rewrite <- (sum_over_rows eta (length scores_pos)
                (fun k => - ln (tf.sigmoid1 (- score scores_neg k)))).
  rewrite <- (sum_over_rows eta (length scores_pos)
                (fun k => - ln (tf.sigmoid1 (- score scores_neg k - margin)))).
  rewrite <- !sum_over_scal.
  split; f_equal; [f_equal|unfold Rminus at 1; f_equal; rewrite <- sum_over_opp];
    apply sum_over_ext; intros i _; rewrite <- ?sum_over_opp, <- sum_over_scal;
    apply sum_over_ext; intros j _; rewrite p_neg_alpha0; unfold neg_matrix; lra.
Qed.

Lemma adversarial_alpha0_uniform_witness :
  ({[ "alpha" := 0 ]} : gmap string R) !! "alpha" = Some 0
  /\ length [2; 3; 4; 5] = (2 * length [1; 6])%nat
  /\ exists nll_adversarial,
       __init__ NLLOriginalLoss 2 {[ "alpha" := 0 ]} = Ok nll_adversarial
       /\ apply nll_adversarial [1; 6] [2; 3; 4; 5]
          = Ok (sum_over (length [1; 6]) (fun j => neg_log_sigmoid (score [1; 6] j))
                + / INR 2
                  * sum_over (length [2; 3; 4; 5])
                      (fun k => neg_log_sigmoid (- score [2; 3; 4; 5] k))).
Proof.
  split; [apply lookup_singleton_eq|]. split; [reflexivity|].
  destruct (adversarial_alpha0_uniform 2 {[ "alpha" := 0 ]} [1; 6] [2; 3; 4; 5])
    as (adv & _ & Hinit & _ & Happly & _);
    [apply lookup_singleton_eq|reflexivity|].
  exists adv. split; [exact Hinit|exact Happly].
Defined.

(** X20.  Built with [eta = 0], an adversarial loss accepts no negative
    score at all: on an empty [scores_neg] it returns its positive part
    alone, and on any other it fails in the reshape. *)
Theorem adversarial_eta0 (hyperparam_dict : gmap string R)
    (scores_pos : list R) (x : R) (scores_neg : list R) :
  let margin := dict_get hyperparam_dict "margin" 3 in
  exists nll_adversarial self_adversarial,
    __init__ NLLOriginalLoss 0 hyperparam_dict = Ok nll_adversarial
    /\ __init__ SelfAdversarialLoss 0 hyperparam_dict = Ok self_adversarial
    /\ apply nll_adversarial scores_pos []
       = Ok (sum_over (length scores_pos)
               (fun j => neg_log_sigmoid (score scores_pos j)))
    /\ apply self_adversarial scores_pos []
       = Ok (sum_over (length scores_pos)
               (fun j => neg_log_sigmoid (margin - - score scores_pos j)))
    /\ apply nll_adversarial scores_pos (x :: scores_neg) = Raise IncompatibleShapes
    /\ apply self_adversarial scores_pos (x :: scores_neg)
       = Raise IncompatibleShapes.
Proof.
  intros margin. do 2 eexists. split; [reflexivity|]. split; [reflexivity|].
  rewrite !(nll_adversarial_instance 0 hyperparam_dict) by reflexivity.
  rewrite !(self_adversarial_instance 0 hyperparam_dict) by reflexivity.
  fold margin.
  unfold nll_adversarial_formula, self_adversarial_formula, neg_log_sigmoid.
  repeat split; case_decide as Hlen; simpl in Hlen; try lia; try reflexivity;
    simpl; f_equal; lra.
Qed.

End Settings.
